(** * Irrigation backend: prediction pipeline, on-demand trigger and poller

    A shallow embedding of [main.py].  The Python program talks to four
    collaborators (the wall clock, the Firebase store, the fitted
    encoders/scaler/model, and standard output); here they are the fields of
    a record of functions over an abstract world, and every Python function
    becomes a computation in a small state-and-exception monad whose state
    survives a raised exception, as Python's does.

    What the model takes for granted:
    - a collaborator that fails raises a subclass of [Exception] (nothing
      like [KeyboardInterrupt]), and [print] and [str(e)] do not raise;
    - the store hands back parsed JSON: [None], booleans, integers, floats,
      strings, lists and mappings with one value per key;
    - [SensorData(...)] accepts any three floats, as pydantic does;
    - the fitted encoders, scaler and model are pure: they answer or raise,
      and the answer depends on the argument only;
    - the [while True] loop is observed for a number of passes. *)

From Stdlib Require Import ZArith List String Ascii Bool Lia.
From Stdlib Require Import SpecFloat.
Import ListNotations.
Set Warnings "-register-all".
Local Open Scope string_scope.
Local Open Scope Z_scope.

(** ** Python floats

    A Python [float] is an IEEE 754 binary64 number: precision 53,
    maximal exponent 1024. *)

Definition float := spec_float.

Module PyFloat.

Definition prec : Z := 53.
Definition emax : Z := 1024.

(** [float(z)] for an integer that fits; round to nearest even. *)
Definition of_Z (z : Z) : float := binary_normalize prec emax z 0 false.

(** [m * 2^e], used for literals such as [0.5]. *)
Definition of_scaled (m e : Z) : float := binary_normalize prec emax m e false.

Definition mul (x y : float) : float := SFmul prec emax x y.
Definition ltb (x y : float) : bool := SFltb x y.
Definition eqb (x y : float) : bool := SFeqb x y.

(** Python's [x > y] is [y < x]. *)
Definition gtb (x y : float) : bool := ltb y x.

Definition zero : float := S754_zero false.
Definition one : float := of_Z 1.
Definition half : float := of_scaled 1 (-1).

(** Truth value of a float: false exactly for [0.0] and [-0.0]. *)
Definition truthy (x : float) : bool :=
  match x with
  | S754_zero _ => false
  | _ => true
  end.

(** Exact comparison of a Python integer with a float, as [==] between an
    [int] and a [float] does it (no rounding of the integer). *)
Definition eqb_Z (z : Z) (x : float) : bool :=
  match x with
  | S754_zero _ => z =? 0
  | S754_finite s m e =>
      let sm := if s then Z.neg m else Z.pos m in
      if 0 <=? e then z =? sm * 2 ^ e else z * 2 ^ (- e) =? sm
  | S754_infinity _ | S754_nan => false
  end.

End PyFloat.

(** ** Values read from and written to the store (parsed JSON) *)

Inductive json : Type :=
| JNull
| JBool (b : bool)
| JInt (z : Z)
| JFloat (x : float)
| JStr (s : string)
| JList (items : list json)
| JObj (fields : list (string * json)).

(** ** Exceptions *)

Inductive exn_class : Type :=
| ValueError
| TypeError
| AttributeError
| OverflowError
| OtherException (name : string).

Record exn : Type := Exn { exn_cls : exn_class; exn_msg : string }.

(** [str(e)] *)
Definition str_exn (e : exn) : string := exn_msg e.

Inductive outcome (A : Type) : Type :=
| Ok (a : A)
| Raise (e : exn).
Arguments Ok {A} a.
Arguments Raise {A} e.

(** ** Python operations on parsed JSON *)

Module Py.

(** First binding of a key, as a [dict] parsed from JSON has one per key. *)
Fixpoint lookup (k : string) (fields : list (string * json)) : option json :=
  match fields with
  | [] => None
  | (k', v) :: rest => if String.eqb k k' then Some v else lookup k rest
  end.

Definition int_of_bool (b : bool) : Z := if b then 1 else 0.

(** [a == b] *)
Fixpoint eq (a b : json) {struct a} : bool :=
  match a, b with
  | JNull, JNull => true
  | JBool x, JBool y => Bool.eqb x y
  | JBool x, JInt y => int_of_bool x =? y
  | JInt x, JBool y => x =? int_of_bool y
  | JInt x, JInt y => x =? y
  | JBool x, JFloat y => PyFloat.eqb_Z (int_of_bool x) y
  | JFloat x, JBool y => PyFloat.eqb_Z (int_of_bool y) x
  | JInt x, JFloat y => PyFloat.eqb_Z x y
  | JFloat x, JInt y => PyFloat.eqb_Z y x
  | JFloat x, JFloat y => PyFloat.eqb x y
  | JStr x, JStr y => String.eqb x y
  | JList xs, JList ys =>
      (fix eq_items (xs ys : list json) {struct xs} : bool :=
         match xs, ys with
         | [], [] => true
         | x :: xs', y :: ys' => eq x y && eq_items xs' ys'
         | _, _ => false
         end) xs ys
  | JObj xs, JObj ys =>
      (Nat.eqb (List.length xs) (List.length ys)) &&
      (fix eq_fields (xs : list (string * json)) {struct xs} : bool :=
         match xs with
         | [] => true
         | (k, v) :: xs' =>
             match lookup k ys with
             | Some w => eq v w && eq_fields xs'
             | None => false
             end
         end) xs
  | _, _ => false
  end.

(** [a != b] *)
Definition ne (a b : json) : bool := negb (eq a b).

(** Truth value, as [if x:] and [not x] take it. *)
Definition truthy (v : json) : bool :=
  match v with
  | JNull => false
  | JBool b => b
  | JInt z => negb (z =? 0)
  | JFloat x => PyFloat.truthy x
  | JStr s => negb (String.eqb s "")
  | JList items => match items with [] => false | _ => true end
  | JObj fields => match fields with [] => false | _ => true end
  end.

(** [type(v).__name__] *)
Definition type_name (v : json) : string :=
  match v with
  | JNull => "NoneType"
  | JBool _ => "bool"
  | JInt _ => "int"
  | JFloat _ => "float"
  | JStr _ => "str"
  | JList _ => "list"
  | JObj _ => "dict"
  end.

(** The [AttributeError] of [v.name] on a value without that attribute. *)
Definition no_attribute (v : json) (name : string) : exn :=
  Exn AttributeError
      ("'" ++ type_name v ++ "' object has no attribute '" ++ name ++ "'").

(** The [TypeError] of [x in v] on a value that is no container. *)
Definition not_iterable (v : json) : exn :=
  Exn TypeError ("argument of type '" ++ type_name v ++ "' is not iterable").

Definition hex_digit (n : N) : ascii :=
  ascii_of_N (if (n <? 10)%N then 48 + n else 87 + n).

Definition backslash : ascii := ascii_of_N 92.

(** One character of [repr(s)], inside the quote [q]. *)
Definition repr_char (q c : ascii) : string :=
  let n := N_of_ascii c in
  if Ascii.eqb c q || Ascii.eqb c backslash then String backslash (String c "")
  else if (n =? 9)%N then String backslash "t"
  else if (n =? 10)%N then String backslash "n"
  else if (n =? 13)%N then String backslash "r"
  else if (n <? 32)%N || (n =? 127)%N then
    String backslash
      (String "x" (String (hex_digit (n / 16)) (String (hex_digit (n mod 16)) "")))
  else String c "".

Fixpoint repr_chars (q : ascii) (s : string) : string :=
  match s with
  | EmptyString => ""
  | String c rest => repr_char q c ++ repr_chars q rest
  end.

Fixpoint has_char (c : ascii) (s : string) : bool :=
  match s with
  | EmptyString => false
  | String c' rest => Ascii.eqb c c' || has_char c rest
  end.

(** [repr(s)] of a string: in single quotes, or in double quotes when the
    string holds a single quote and no double one; backslash, the quote and
    control characters escaped.  Bytes beyond ASCII stand for printable
    characters and are kept. *)
Definition repr_str (s : string) : string :=
  let single := "'"%char in
  let double := ascii_of_N 34 in
  let q := if has_char single s && negb (has_char double s) then double else single in
  String q (repr_chars q s ++ String q "").

(** [needle in haystack] for two strings. *)
Fixpoint contains (needle haystack : string) : bool :=
  String.prefix needle haystack ||
  match haystack with
  | EmptyString => false
  | String _ rest => contains needle rest
  end.

(** [field in v], for a string [field]. *)
Definition has (field : string) (v : json) : outcome bool :=
  match v with
  | JObj fields =>
      Ok (match lookup field fields with Some _ => true | None => false end)
  | JList items => Ok (existsb (fun x => eq x (JStr field)) items)
  | JStr s => Ok (contains field s)
  | JNull | JBool _ | JInt _ | JFloat _ => Raise (not_iterable v)
  end.

(** [v.get(key, default)] *)
Definition get (v : json) (key : string) (default : json) : outcome json :=
  match v with
  | JObj fields =>
      Ok (match lookup key fields with Some x => x | None => default end)
  | _ => Raise (no_attribute v "get")
  end.

(** [list(v.keys())] *)
Definition keys (v : json) : outcome (list string) :=
  match v with
  | JObj fields => Ok (map fst fields)
  | _ => Raise (no_attribute v "keys")
  end.

(** [v.copy()]: a shallow copy, equal to the original. *)
Definition copy (v : json) : outcome json :=
  match v with
  | JObj fields => Ok (JObj fields)
  | JList items => Ok (JList items)
  | _ => Raise (no_attribute v "copy")
  end.

Section Float.

(** Python's parser of float literals in strings; [None] where [float(s)]
    raises [ValueError]. *)
Variable parse_float : string -> option float.

(** [float(v)] *)
Definition to_float (v : json) : outcome float :=
  match v with
  | JFloat x => Ok x
  | JInt z =>
      match PyFloat.of_Z z with
      | S754_infinity _ =>
          Raise (Exn OverflowError "int too large to convert to float")
      | x => Ok x
      end
  | JBool b => Ok (PyFloat.of_Z (int_of_bool b))
  | JStr s =>
      match parse_float s with
      | Some x => Ok x
      | None =>
          Raise (Exn ValueError
                   ("could not convert string to float: " ++ repr_str s))
      end
  | JNull | JList _ | JObj _ =>
      Raise (Exn TypeError
               ("float() argument must be a string or a real number, not '"
                ++ type_name v ++ "'"))
  end.

End Float.

End Py.

(** ** Wall-clock time

    What [datetime.now()] returns: a naive local date and time. *)

Record datetime : Type := {
  year : Z;
  month : Z;
  day : Z;
  hour : Z;
  minute : Z;
  second : Z;
  microsecond : Z
}.

Module Datetime.

Definition is_leap (y : Z) : bool :=
  ((y mod 4 =? 0) && negb (y mod 100 =? 0)) || (y mod 400 =? 0).

Definition days_in_month (y m : Z) : Z :=
  if m =? 2 then (if is_leap y then 29 else 28)
  else if (m =? 4) || (m =? 6) || (m =? 9) || (m =? 11) then 30
  else 31.

(** Days of year [y] before the first of month [m]. *)
Definition days_before_month (y m : Z) : Z :=
  fold_right Z.add 0
    (map (days_in_month y) (map Z.of_nat (seq 1 (Z.to_nat (m - 1))))).

(** [d.timetuple().tm_yday] *)
Definition tm_yday (d : datetime) : Z :=
  days_before_month (year d) (month d) + day d.

Definition digit (z : Z) : ascii := ascii_of_N (48 + Z.to_N (z mod 10)).

(** The [width] low decimal digits of [z], most significant first, in front
    of [rest]: the ["%0<width>d"] of a number that fits. *)
Fixpoint zfill (width : nat) (z : Z) (rest : string) : string :=
  match width with
  | O => rest
  | S w => zfill w (z / 10) (String (digit z) rest)
  end.

(** [d.isoformat()] of a naive datetime: [YYYY-MM-DDTHH:MM:SS], followed by
    [.ffffff] when the microsecond is not zero. *)
Definition isoformat (d : datetime) : string :=
  zfill 4 (year d) ("-" ++ zfill 2 (month d) ("-" ++ zfill 2 (day d) ("T" ++
  zfill 2 (hour d) (":" ++ zfill 2 (minute d) (":" ++ zfill 2 (second d)
    (if microsecond d =? 0 then "" else "." ++ zfill 6 (microsecond d) "")))))).

(** *** Shape of an ISO-8601 local date-time *)

Inductive shape : Type :=
| Digit
| Lit (c : ascii).

Definition is_digit (c : ascii) : bool :=
  let n := N_of_ascii c in (48 <=? n)%N && (n <=? 57)%N.

Fixpoint has_shape (p : list shape) (s : string) : bool :=
  match p, s with
  | [], EmptyString => true
  | Digit :: p', String c s' => is_digit c && has_shape p' s'
  | Lit a :: p', String c s' => Ascii.eqb a c && has_shape p' s'
  | _, _ => false
  end.

Definition seconds_shape : list shape :=
  [Digit; Digit; Digit; Digit; Lit "-"; Digit; Digit; Lit "-"; Digit; Digit;
   Lit "T"; Digit; Digit; Lit ":"; Digit; Digit; Lit ":"; Digit; Digit].

Definition fraction_shape : list shape :=
  [Lit "."; Digit; Digit; Digit; Digit; Digit; Digit].

(** [YYYY-MM-DDTHH:MM:SS] or [YYYY-MM-DDTHH:MM:SS.ffffff] *)
Definition is_iso8601 (s : string) : bool :=
  has_shape seconds_shape s || has_shape (seconds_shape ++ fraction_shape) s.

End Datetime.

(** ** The state-and-exception monad

    A computation takes the machine state and returns either a value or a
    raised exception, with the state reached so far in both cases. *)

Definition M (S A : Type) : Type := S -> outcome A * S.

Definition ret {S A} (a : A) : M S A := fun s => (Ok a, s).

Definition raise {S A} (e : exn) : M S A := fun s => (Raise e, s).

Definition bind {S A B} (m : M S A) (k : A -> M S B) : M S B :=
  fun s =>
    match m s with
    | (Ok a, s') => k a s'
    | (Raise e, s') => (Raise e, s')
    end.

(** Sequencing of pure operations that may raise. *)
Definition and_then {A B} (o : outcome A) (k : A -> outcome B) : outcome B :=
  match o with
  | Ok a => k a
  | Raise e => Raise e
  end.

(** A pure operation that may raise. *)
Definition pure {S A} (o : outcome A) : M S A := fun s => (o, s).

(** [try: body  except <classes> as e: handler(e)]; an exception whose class
    [catches] rejects propagates. *)
Definition try_except {S A} (body : M S A) (catches : exn -> bool)
    (handler : exn -> M S A) : M S A :=
  fun s =>
    match body s with
    | (Ok a, s') => (Ok a, s')
    | (Raise e, s') => if catches e then handler e s' else (Raise e, s')
    end.

Declare Scope py_scope.
Delimit Scope py_scope with py.
Notation "x <- m ;; k" := (bind m (fun x => k))
  (at level 61, m at next level, right associativity) : py_scope.
Notation "m ;; k" := (bind m (fun _ => k))
  (at level 61, right associativity) : py_scope.
Local Open Scope py_scope.

(** [except Exception]: every exception the collaborators raise. *)
Definition any_Exception (e : exn) : bool := true.

(** [except (ValueError, TypeError)] *)
Definition ValueError_or_TypeError (e : exn) : bool :=
  match exn_cls e with
  | ValueError | TypeError => true
  | _ => false
  end.

(** ** Data model *)

(** [class SensorData(BaseModel)]: three float fields. *)
Record SensorData : Type := {
  humidity : float;
  temperature : float;
  soilMoisture : float
}.

(** An entry of the Python list handed to [np.array]: an [int] or a [float]. *)
Inductive number : Type :=
| Int (z : Z)
| Float (x : float).

(** What [predict_irrigation] returns:
    [{"irrigation_class": c, "timestamp": t}] or [{"error": msg}]. *)
Inductive PredictionResult : Type :=
| Prediction (irrigation_class : Z) (timestamp : string)
| PredictionError (error : string).

(** What [trigger_prediction] returns:
    [{"status": "success", "result": r, "input_data": d}] or
    [{"status": "error", "message": msg}]. *)
Inductive TriggerResponse : Type :=
| TriggerSuccess (result : PredictionResult) (input_data : json)
| TriggerError (message : string).

(** What [health_check] returns:
    [{"status": "healthy", "firebase_connected": True,
      "current_sensor_data": d, "timestamp": t}] or
    [{"status": "unhealthy", "firebase_connected": False,
      "error": msg, "timestamp": t}]. *)
Inductive HealthResponse : Type :=
| Healthy (current_sensor_data : json) (timestamp : string)
| Unhealthy (error : string) (timestamp : string).

(** The lines the program prints, one constructor per [print] site (the three
    consecutive prints of a detected change are one line here, and so are
    the two of a validation error). *)
Inductive line : Type :=
| PredictionUpdated (irrigation_class : Z) (timestamp : string)
| PredictionErrorPrinted (message : string)
| StartingMonitoring
| CurrentSensorData (current : json)
| DetectedChange (previous : option json) (current : json)
| PredictionResultPrinted (result : PredictionResult)
| DataValidationError (e : exn) (raw : json)
| MissingRequiredFields (missing : list string)
| AvailableFields (available : list string)
| NoChangeDetected
| NoSensorDataFound
| ErrorWhileMonitoring (attempt : Z) (e : exn)
| TooManyConsecutiveErrors (ceiling : Z).

(** ** Collaborators

    [W] is the state of everything outside the program: the clock, the remote
    store and whoever else writes to it. *)
Record Collaborators (W : Type) : Type := {
  (** [datetime.now()] *)
  datetime_now : W -> datetime * W;
  (** [db.reference(path).get()]; [JNull] for an absent node *)
  db_get : string -> W -> outcome json * W;
  (** [db.reference(path).set(value)] *)
  db_set : string -> json -> W -> outcome unit * W;
  (** [time.sleep(seconds)] *)
  time_sleep : Z -> W -> W;
  (** [encoders['le_district'].transform([label])[0]], and likewise below *)
  le_district : string -> outcome Z;
  le_zone : string -> outcome Z;
  le_season : string -> outcome Z;
  (** [scaler.transform(np.array([row]))] *)
  scaler_transform : list number -> outcome (list float);
  (** [int(model.predict(scaled)[0])] *)
  model_predict : list float -> outcome Z;
  (** the float literals [float(str)] accepts *)
  parse_float : string -> option float
}.
Arguments datetime_now {W} _ _.
Arguments db_get {W} _ _ _.
Arguments db_set {W} _ _ _ _.
Arguments time_sleep {W} _ _ _.
Arguments le_district {W} _ _.
Arguments le_zone {W} _ _.
Arguments le_season {W} _ _.
Arguments scaler_transform {W} _ _.
Arguments model_predict {W} _ _.
Arguments parse_float {W} _ _.

(** The machine: the outside world and what has been printed so far. *)
Record machine (W : Type) : Type := {
  world : W;
  stdout : list line
}.
Arguments world {W} _.
Arguments stdout {W} _.

(** [print(l)] *)
Definition print {W} (l : line) : M (machine W) unit :=
  fun s => (Ok tt, {| world := world s; stdout := stdout s ++ [l] |}).

(** A call into the outside world that may raise. *)
Definition call {W A} (f : W -> outcome A * W) : M (machine W) A :=
  fun s =>
    let '(o, w) := f (world s) in
    (o, {| world := w; stdout := stdout s |}).

(** A call into the outside world that cannot raise. *)
Definition call_total {W A} (f : W -> A * W) : M (machine W) A :=
  fun s =>
    let '(a, w) := f (world s) in
    (Ok a, {| world := w; stdout := stdout s |}).

(** ** Feature engineering (lines 55-95 of [main.py]) *)

Definition rainfall_mm_prediction_next_1h : float := PyFloat.half.

Definition district : string := "Coimbatore".
Definition zone : string := "Western Zone".
Definition season : string := "southwest_monsoon".

(** [int(a and b)] for two booleans *)
Definition int_and (a b : bool) : Z := Py.int_of_bool (if a then b else false).

(** [int(temperature > 35 and humidity < 50)] *)
Definition heat_stress (data : SensorData) : Z :=
  int_and (PyFloat.gtb (temperature data) (PyFloat.of_Z 35))
          (PyFloat.ltb (humidity data) (PyFloat.of_Z 50)).

(** [int(soil_moisture < 30 and rainfall < 1)] *)
Definition drought_stress (data : SensorData) : Z :=
  int_and (PyFloat.ltb (soilMoisture data) (PyFloat.of_Z 30))
          (PyFloat.ltb rainfall_mm_prediction_next_1h (PyFloat.of_Z 1)).

Definition soil_temp_interaction (data : SensorData) : float :=
  PyFloat.mul (soilMoisture data) (temperature data).

Definition humidity_rain_interaction (data : SensorData) : float :=
  PyFloat.mul (humidity data) rainfall_mm_prediction_next_1h.

(** The row of [np.array([[...]])]. *)
Definition feature_vector (data : SensorData) (now : datetime)
    (district_enc zone_enc season_enc : Z) : list number :=
  [ Float (soilMoisture data);
    Float (temperature data);
    Float (humidity data);
    Float rainfall_mm_prediction_next_1h;
    Int (hour now);
    Int (Datetime.tm_yday now);
    Int (month now);
    Int district_enc;
    Int zone_enc;
    Int season_enc;
    Int (heat_stress data);
    Int (drought_stress data);
    Float (soil_temp_interaction data);
    Float (humidity_rain_interaction data) ].

(** ** State and pure parts of the background monitor *)

(** The local variables of [monitor_firebase_sensor_data]. *)
Record PollerState : Type := {
  last_values : option json;
  consecutive_errors : Z
}.

Definition max_errors : Z := 5.

Definition required_fields : list string :=
  ["humidity"; "temperature"; "soilMoisture"].

(** How an iteration leaves the [while True] loop body: on to
    [time.sleep(5)] and the next iteration, or out through [break]. *)
Inductive control : Type :=
| Continue
| Break.

(** [all(field in current for field in fields)]: stops at the first field
    that is absent, raises where [in] raises. *)
Fixpoint all_in (fields : list string) (current : json) : outcome bool :=
  match fields with
  | [] => Ok true
  | f :: rest =>
      match Py.has f current with
      | Ok true => all_in rest current
      | Ok false => Ok false
      | Raise e => Raise e
      end
  end.

(** [[f for f in fields if f not in current]] *)
Fixpoint not_in (fields : list string) (current : json) : outcome (list string) :=
  match fields with
  | [] => Ok []
  | f :: rest =>
      match Py.has f current with
      | Ok present =>
          match not_in rest current with
          | Ok missing => Ok (if present then missing else f :: missing)
          | Raise e => Raise e
          end
      | Raise e => Raise e
      end
  end.

(** [last_values is None or current != last_values or not last_values] *)
Definition changed (st : PollerState) (current : json) : bool :=
  match last_values st with
  | None => true
  | Some previous => Py.ne current previous || negb (Py.truthy previous)
  end.

(** Programs over the machine. *)
Definition IO (W A : Type) : Type := M (machine W) A.

Section Program.

Context {W : Type} (C : Collaborators W).

(** ** The prediction pipeline *)

(** Lines 68-99: encode the three fixed categories, build the row, scale it
    and classify it.  The first collaborator that raises ends the block. *)
Definition classify (data : SensorData) (now : datetime) : outcome Z :=
  and_then (le_district C district) (fun district_enc =>
  and_then (le_zone C zone) (fun zone_enc =>
  and_then (le_season C season) (fun season_enc =>
  and_then (scaler_transform C
              (feature_vector data now district_enc zone_enc season_enc))
           (fun scaled_input =>
  model_predict C scaled_input)))).

(** Lines 103-104: the two writes of the result. *)
Definition save_result (irrigation_class : Z) (timestamp : string) : IO W unit :=
  call (db_set C "sensorData/prediction_class" (JInt irrigation_class)) ;;
  call (db_set C "sensorData/last_prediction_time" (JStr timestamp)).

(** The body of the [try] of [predict_irrigation]. *)
Definition predict_irrigation_try (data : SensorData) : IO W PredictionResult :=
  now <- call_total (datetime_now C) ;;
  irrigation_class <- pure (classify data now) ;;
  now' <- call_total (datetime_now C) ;;
  let timestamp := Datetime.isoformat now' in
  save_result irrigation_class timestamp ;;
  print (PredictionUpdated irrigation_class timestamp) ;;
  ret (Prediction irrigation_class timestamp).

Definition predict_irrigation (data : SensorData) : IO W PredictionResult :=
  try_except (predict_irrigation_try data) any_Exception
    (fun e =>
       print (PredictionErrorPrinted (str_exn e)) ;;
       ret (PredictionError (str_exn e))).

(** [POST /predict] *)
Definition predict_route (data : SensorData) : IO W PredictionResult :=
  predict_irrigation data.

(** [float(d.get(key, 0.0))] *)
Definition float_field (d : json) (key : string) : outcome float :=
  and_then (Py.get d key (JFloat PyFloat.zero)) (Py.to_float (parse_float C)).

(** [SensorData(humidity=float(d.get("humidity", 0.0)), temperature=...,
    soilMoisture=...)], arguments evaluated left to right. *)
Definition read_SensorData (d : json) : outcome SensorData :=
  and_then (float_field d "humidity") (fun h =>
  and_then (float_field d "temperature") (fun t =>
  and_then (float_field d "soilMoisture") (fun m =>
  Ok {| humidity := h; temperature := t; soilMoisture := m |}))).

(** ** The on-demand trigger ([POST /trigger-prediction]) *)

Definition trigger_prediction_try : IO W TriggerResponse :=
  current_data <- call (db_get C "sensorData/raw") ;;
  if Py.truthy current_data then
    data <- pure (read_SensorData current_data) ;;
    result <- predict_irrigation data ;;
    ret (TriggerSuccess result current_data)
  else
    ret (TriggerError "No sensor data found").

Definition trigger_prediction : IO W TriggerResponse :=
  try_except trigger_prediction_try any_Exception
    (fun e => ret (TriggerError (str_exn e))).

(** ** The health check ([GET /health]) *)

Definition health_check_try : IO W HealthResponse :=
  current_data <- call (db_get C "sensorData/raw") ;;
  now <- call_total (datetime_now C) ;;
  ret (Healthy current_data (Datetime.isoformat now)).

Definition health_check : IO W HealthResponse :=
  try_except health_check_try any_Exception
    (fun e =>
       now <- call_total (datetime_now C) ;;
       ret (Unhealthy (str_exn e) (Datetime.isoformat now))).

(** ** The background monitor *)

(** The inner [try] (lines 194-202).  The two assignments are its last
    statements, so an exception leaves both variables as they were. *)
Definition process_snapshot (current : json) : IO W PollerState :=
  data <- pure (read_SensorData current) ;;
  result <- predict_irrigation data ;;
  print (PredictionResultPrinted result) ;;
  saved <- pure (Py.copy current) ;;
  ret {| last_values := Some saved; consecutive_errors := 0 |}.

(** The outer [try] of the loop body (lines 181-213). *)
Definition monitor_try (st : PollerState) : IO W PollerState :=
  current <- call (db_get C "sensorData") ;;
  print (CurrentSensorData current) ;;
  match current with
  | JNull =>
      print NoSensorDataFound ;;
      ret st
  | _ =>
      if changed st current then
        print (DetectedChange (last_values st) current) ;;
        complete <- pure (all_in required_fields current) ;;
        if (complete : bool) then
          try_except (process_snapshot current) ValueError_or_TypeError
            (fun e =>
               print (DataValidationError e current) ;;
               ret st)
        else
          missing_fields <- pure (not_in required_fields current) ;;
          print (MissingRequiredFields missing_fields) ;;
          available <- pure (Py.keys current) ;;
          print (AvailableFields available) ;;
          ret st
      else
        print NoChangeDetected ;;
        ret st
  end.

(** One pass through the body of [while True], [time.sleep(5)] included
    when the pass does not [break]. *)
Definition monitor_iteration (st : PollerState) (s : machine W)
    : (PollerState * control) * machine W :=
  let sleep s :=
    {| world := time_sleep C 5 (world s); stdout := stdout s |} in
  match monitor_try st s with
  | (Ok st', s') => ((st', Continue), sleep s')
  | (Raise e, s') =>
      let st' := {| last_values := last_values st;
                    consecutive_errors := consecutive_errors st + 1 |} in
      let s'' := snd (print (ErrorWhileMonitoring (consecutive_errors st') e) s') in
      if consecutive_errors st' >=? max_errors then
        ((st', Break), snd (print (TooManyConsecutiveErrors max_errors) s''))
      else
        ((st', Continue), sleep s'')
  end.

(** At most [n] passes through the loop; [Break] when the loop was left,
    [Continue] when it is still running after [n] passes. *)
Fixpoint monitor_loop (n : nat) (st : PollerState) (s : machine W)
    : (PollerState * control) * machine W :=
  match n with
  | O => ((st, Continue), s)
  | S n' =>
      match monitor_iteration st s with
      | ((st', Break), s') => ((st', Break), s')
      | ((st', Continue), s') => monitor_loop n' st' s'
      end
  end.

Definition initial_state : PollerState :=
  {| last_values := None; consecutive_errors := 0 |}.

(** [monitor_firebase_sensor_data], observed for [n] passes of its loop. *)
Definition monitor_firebase_sensor_data (n : nat) (s : machine W)
    : (PollerState * control) * machine W :=
  monitor_loop n initial_state (snd (print StartingMonitoring s)).

End Program.

(** ** A scripted world

    A concrete outside world, for running the program: the store answers
    successive reads from a script, refuses writes to the paths listed as
    failing, and the clock stands still. *)

Module Sim.

Record sim : Type := {
  reads : list (outcome json);
  written : list (string * json);
  failing : list string;
  slept : Z
}.

Definition clock : datetime :=
  {| year := 2024; month := 3; day := 9; hour := 14; minute := 5;
     second := 7; microsecond := 0 |}.

Definition store_down : exn := Exn (OtherException "FirebaseError") "store unavailable".

Definition get (path : string) (w : sim) : outcome json * sim :=
  match reads w with
  | [] => (Ok JNull, w)
  | r :: rest =>
      (r, {| reads := rest; written := written w; failing := failing w;
             slept := slept w |})
  end.

Definition set (path : string) (v : json) (w : sim) : outcome unit * sim :=
  if existsb (String.eqb path) (failing w) then (Raise store_down, w)
  else (Ok tt, {| reads := reads w; written := (path, v) :: written w;
                  failing := failing w; slept := slept w |}).

Definition sleep (seconds : Z) (w : sim) : sim :=
  {| reads := reads w; written := written w; failing := failing w;
     slept := slept w + seconds |}.

(** Collaborators whose classifier answers class [2] for every row. *)
Definition collaborators : Collaborators sim := {|
  datetime_now := fun w => (clock, w);
  db_get := get;
  db_set := set;
  time_sleep := sleep;
  le_district := fun _ => Ok 7;
  le_zone := fun _ => Ok 4;
  le_season := fun _ => Ok 3;
  scaler_transform := fun _ => Ok [];
  model_predict := fun _ => Ok 2;
  parse_float := fun _ => None
|}.

(** A machine that has printed nothing, with the given script of reads and
    failing paths. *)
Definition boot (script : list (outcome json)) (bad : list string) : machine sim :=
  {| world := {| reads := script; written := []; failing := bad; slept := 0 |};
     stdout := [] |}.

Definition reading (h t m : Z) : SensorData :=
  {| humidity := PyFloat.of_Z h; temperature := PyFloat.of_Z t;
     soilMoisture := PyFloat.of_Z m |}.

(** The node [{"humidity": h, "temperature": t, "soilMoisture": m}]. *)
Definition snapshot (h t m : Z) : json :=
  JObj [("humidity", JInt h); ("temperature", JInt t); ("soilMoisture", JInt m)].

(** A node without [soilMoisture]. *)
Definition incomplete : json :=
  JObj [("humidity", JInt 60); ("temperature", JInt 30)].

(** A read that fails. *)
Definition down : outcome json := Raise store_down.

(** A complete node whose humidity is not a number. *)
Definition garbled : json :=
  JObj [("humidity", JStr "wet"); ("temperature", JInt 30); ("soilMoisture", JInt 45)].

(** A complete node whose humidity is an integer beyond the floats. *)
Definition huge : json :=
  JObj [("humidity", JInt (2 ^ 1024)); ("temperature", JInt 30);
        ("soilMoisture", JInt 45)].

(** A complete node with a field the pipeline does not read. *)
Definition annotated : json :=
  JObj [("humidity", JInt 60); ("note", JStr "bench test"); ("temperature", JInt 30);
        ("soilMoisture", JInt 45)].

Definition unseen_label : exn :=
  Exn ValueError "y contains previously unseen labels: 'Coimbatore'".

(** Collaborators whose district encoder was fitted without Coimbatore. *)
Definition unfitted : Collaborators sim := {|
  datetime_now := fun w => (clock, w);
  db_get := get;
  db_set := set;
  time_sleep := sleep;
  le_district := fun _ => Raise unseen_label;
  le_zone := fun _ => Ok 4;
  le_season := fun _ => Ok 3;
  scaler_transform := fun _ => Ok [];
  model_predict := fun _ => Ok 2;
  parse_float := fun _ => None
|}.

End Sim.

(** ** Vocabulary of the properties *)

(** The line [predict_irrigation] prints for the result it returns. *)
Definition result_line (r : PredictionResult) : line :=
  match r with
  | Prediction c t => PredictionUpdated c t
  | PredictionError msg => PredictionErrorPrinted msg
  end.

(** The two lines only [predict_irrigation] prints: one per call. *)
Definition is_pipeline_line (l : line) : bool :=
  match l with
  | PredictionUpdated _ _ | PredictionErrorPrinted _ => true
  | _ => false
  end.

(** Number of calls of the pipeline a log shows. *)
Definition pipeline_calls (log : list line) : nat :=
  List.length (filter is_pipeline_line log).

(** A mapping that has the three required keys. *)
Definition has_required_fields (v : json) : bool :=
  match v with
  | JObj fields =>
      forallb (fun f => match Py.lookup f fields with Some _ => true | None => false end)
              required_fields
  | _ => false
  end.

(** [last_values] is [None] or a mapping with the three required keys. *)
Definition last_values_ok (st : PollerState) : bool :=
  match last_values st with
  | None => true
  | Some v => has_required_fields v
  end.

(** The machine after printing [ls]. *)
Definition printed {W} (s : machine W) (ls : list line) : machine W :=
  {| world := world s; stdout := stdout s ++ ls |}.

(** The machine in another state of the world, same output. *)
Definition at_world {W} (s : machine W) (w : W) : machine W :=
  {| world := w; stdout := stdout s |}.

(** A value without a NaN in it and without nesting: equal to itself. *)
Definition plain (v : json) : bool :=
  match v with
  | JNull | JBool _ | JInt _ | JStr _ => true
  | JFloat x => PyFloat.eqb x x
  | JList _ | JObj _ => false
  end.

(** A mapping as the sensor uplink writes it: one value per key, every value
    plain. *)
Definition flat (fields : list (string * json)) : Prop :=
  NoDup (map fst fields) /\ Forall (fun kv => plain (snd kv) = true) fields.

(** The next [n] reads of the node fail, one per pass, [time.sleep(5)]
    between them. *)
Fixpoint reads_fail {W} (C : Collaborators W) (n : nat) (w : W) : Prop :=
  match n with
  | O => True
  | S n' =>
      exists e w1,
        db_get C "sensorData" w = (Raise e, w1) /\
        reads_fail C n' (time_sleep C 5 w1)
  end.

(** The poller state after [n] more errors. *)
Definition more_errors (n : Z) (st : PollerState) : PollerState :=
  {| last_values := last_values st;
     consecutive_errors := consecutive_errors st + n |}.

(** A mapping, as opposed to a scalar, a string or a list. *)
Definition is_mapping (v : json) : bool :=
  match v with
  | JObj _ => true
  | _ => false
  end.

(** The required fields a mapping lacks, in the order of [required_fields]. *)
Definition missing_of (fields : list (string * json)) : list string :=
  filter (fun f => match Py.lookup f fields with Some _ => false | None => true end)
         required_fields.

(** ** Facts about formatting *)

Lemma is_digit_digit (z : Z) : Datetime.is_digit (Datetime.digit z) = true.
Proof.
  unfold Datetime.digit.
  assert (H : 0 <= z mod 10 < 10) by (apply Z.mod_pos_bound; lia).
  assert (E : z mod 10 = 0 \/ z mod 10 = 1 \/ z mod 10 = 2 \/ z mod 10 = 3 \/
              z mod 10 = 4 \/ z mod 10 = 5 \/ z mod 10 = 6 \/ z mod 10 = 7 \/
              z mod 10 = 8 \/ z mod 10 = 9) by lia.
  repeat (destruct E as [E | E]; [rewrite E; reflexivity | ]).
  rewrite E; reflexivity.
Qed.

Lemma isoformat_is_iso8601 (d : datetime) :
  Datetime.is_iso8601 (Datetime.isoformat d) = true.
Proof.
  unfold Datetime.is_iso8601, Datetime.isoformat.
  apply orb_true_iff.
  destruct (microsecond d =? 0); [left | right];
    cbn -[Datetime.digit Datetime.is_digit Z.div];
    rewrite !is_digit_digit; reflexivity.
Qed.

(** ** Facts about Python equality *)

Lemma float_eqb_refl (x : float) : x <> S754_nan -> PyFloat.eqb x x = true.
Proof.
  unfold PyFloat.eqb, SFeqb.
  destruct x as [s | s | | s m e]; cbn; intros H; try congruence.
  - destruct s; reflexivity.
  - destruct s; rewrite Z.compare_refl, Pos.compare_cont_refl; reflexivity.
Qed.

Lemma eq_plain_refl (v : json) : plain v = true -> Py.eq v v = true.
Proof.
  destruct v; cbn; try discriminate; intros H; auto.
  - destruct b; reflexivity.
  - apply Z.eqb_refl.
  - apply String.eqb_refl.
Qed.

Lemma lookup_NoDup k v fields :
  NoDup (map fst fields) -> In (k, v) fields -> Py.lookup k fields = Some v.
Proof.
  induction fields as [|[k' v'] rest IH]; cbn; intros Hnd Hin; [contradiction | ].
  inversion Hnd as [|? ? Hnotin Hnd']; subst.
  destruct Hin as [[= -> ->] | Hin].
  - rewrite String.eqb_refl. reflexivity.
  - destruct (String.eqb_spec k k') as [-> | _]; [ | auto].
    exfalso. apply Hnotin. apply (in_map fst) in Hin. exact Hin.
Qed.

(** A flat mapping read twice compares equal: the case in which "the same
    snapshot" is literally the same. *)
Lemma eq_flat_refl fields :
  flat fields -> Py.eq (JObj fields) (JObj fields) = true.
Proof.
  intros [Hnd Hplain]. cbn. rewrite Nat.eqb_refl. cbn.
  assert (H : forall xs, incl xs fields ->
    (fix eq_fields (xs : list (string * json)) : bool :=
       match xs with
       | [] => true
       | (k, v) :: xs' =>
           match Py.lookup k fields with
           | Some w => Py.eq v w && eq_fields xs'
           | None => false
           end
       end) xs = true).
  { induction xs as [|[k v] xs IH]; intros Hincl; [reflexivity | ].
    rewrite (lookup_NoDup k v fields Hnd (Hincl _ (or_introl eq_refl))).
    rewrite eq_plain_refl, IH; [reflexivity | | ].
    - intros x Hx. apply Hincl. right. exact Hx.
    - rewrite Forall_forall in Hplain. apply (Hplain (k, v)), Hincl.
      left. reflexivity. }
  apply H, incl_refl.
Qed.

(** ** Properties of the prediction pipeline *)

Section PipelineFacts.

Context {W : Type} (C : Collaborators W).

(** Unfold one layer of the monad. *)
Ltac run :=
  unfold predict_irrigation, predict_irrigation_try, save_result, try_except,
    bind, call, call_total, pure, ret, print, any_Exception, printed, at_world;
  cbn [world stdout fst snd].

(** A raised classification is reported as an error result. *)
Lemma predict_irrigation_classify_raises data s now w1 e :
  datetime_now C (world s) = (now, w1) ->
  classify C data now = Raise e ->
  predict_irrigation C data s =
    (Ok (PredictionError (str_exn e)),
     printed (at_world s w1) [PredictionErrorPrinted (str_exn e)]).
Proof.
  intros Hnow Hc. run. rewrite Hnow. cbn. rewrite Hc. reflexivity.
Qed.

(** The run of the pipeline once the classifier has answered. *)
Lemma predict_irrigation_classified data s now w1 c now' w2 :
  datetime_now C (world s) = (now, w1) ->
  classify C data now = Ok c ->
  datetime_now C w1 = (now', w2) ->
  predict_irrigation C data s =
    match save_result C c (Datetime.isoformat now') (at_world s w2) with
    | (Ok _, s') =>
        (Ok (Prediction c (Datetime.isoformat now')),
         printed s' [PredictionUpdated c (Datetime.isoformat now')])
    | (Raise e, s') =>
        (Ok (PredictionError (str_exn e)),
         printed s' [PredictionErrorPrinted (str_exn e)])
    end.
Proof.
  intros Hnow Hc Hnow'. run. rewrite Hnow. cbn. rewrite Hc, Hnow'. cbn.
  destruct (db_set C _ _ w2) as [[[]|e1] w3]; cbn; [ | reflexivity].
  destruct (db_set C _ _ w3) as [[[]|e2] w4]; reflexivity.
Qed.

(** [save_result] raises exactly when one of its two writes does: the first,
    or the second after the first went through. *)
Lemma save_result_unfold c t s :
  save_result C c t s =
    match db_set C "sensorData/prediction_class" (JInt c) (world s) with
    | (Raise e, w) => (Raise e, at_world s w)
    | (Ok _, w) =>
        let '(o, w') := db_set C "sensorData/last_prediction_time" (JStr t) w in
        (o, at_world s w')
    end.
Proof.
  run. destruct (db_set C _ _ (world s)) as [[[]|e1] w3]; reflexivity.
Qed.

(** [save_result] only writes: it prints nothing. *)
Lemma save_result_stdout c t s :
  stdout (snd (save_result C c t s)) = stdout s.
Proof.
  run. destruct (db_set C _ _ (world s)) as [[[]|e1] w3]; cbn; [ | reflexivity].
  destruct (db_set C _ _ w3) as [[[]|e2] w4]; reflexivity.
Qed.

(** [predict_irrigation] returns a result, never an exception, and prints
    exactly the one line of that result. *)
Lemma predict_irrigation_returns data s :
  exists r s',
    predict_irrigation C data s = (Ok r, s') /\
    stdout s' = (stdout s ++ [result_line r])%list.
Proof.
  destruct (datetime_now C (world s)) as [now w1] eqn:Hnow.
  destruct (classify C data now) as [c|e] eqn:Hc.
  - destruct (datetime_now C w1) as [now' w2] eqn:Hnow'.
    rewrite (predict_irrigation_classified _ _ _ _ _ _ _ Hnow Hc Hnow').
    pose proof (save_result_stdout c (Datetime.isoformat now') (at_world s w2)) as Hout.
    destruct (save_result C c _ (at_world s w2)) as [[[]|e] s']; cbn in Hout;
      eexists; eexists; (split; [reflexivity | cbn; rewrite Hout; reflexivity]).
  - rewrite (predict_irrigation_classify_raises _ _ _ _ _ Hnow Hc).
    eexists; eexists; split; reflexivity.
Qed.

(** C5: for every [SensorData] (three floats) and every behaviour of the
    collaborators, [predict_irrigation] returns and does not raise; what it
    returns is either an error message or an integer class, which the
    classifier gave for this reading, with a timestamp of ISO-8601 shape. *)
Theorem predict_irrigation_never_raises (data : SensorData) (s : machine W) :
  exists r s',
    predict_irrigation C data s = (Ok r, s') /\
    match r with
    | Prediction c t =>
        Datetime.is_iso8601 t = true /\ exists now, classify C data now = Ok c
    | PredictionError msg => True
    end.
Proof.
  destruct (datetime_now C (world s)) as [now w1] eqn:Hnow.
  destruct (classify C data now) as [c|e] eqn:Hc.
  - destruct (datetime_now C w1) as [now' w2] eqn:Hnow'.
    rewrite (predict_irrigation_classified _ _ _ _ _ _ _ Hnow Hc Hnow').
    destruct (save_result C c _ (at_world s w2)) as [[[]|e] s'].
    + eexists; eexists; split; [reflexivity | ].
      split; [apply isoformat_is_iso8601 | exists now; exact Hc].
    + eexists; eexists; split; [reflexivity | exact I].
  - rewrite (predict_irrigation_classify_raises _ _ _ _ _ Hnow Hc).
    eexists; eexists; split; [reflexivity | exact I].
Qed.

(** C1, as the code has it: when the classifier has answered and one of the
    two writes of the result raises, [predict_irrigation] catches the
    exception in its only handler and returns the error result carrying the
    message of the write failure; the class is not returned. *)
Theorem predict_irrigation_write_failure
    (data : SensorData) (s : machine W) (now now' : datetime) (w1 w2 : W)
    (c : Z) (e : exn) (s3 : machine W) :
  datetime_now C (world s) = (now, w1) ->
  classify C data now = Ok c ->
  datetime_now C w1 = (now', w2) ->
  save_result C c (Datetime.isoformat now') (at_world s w2) = (Raise e, s3) ->
  predict_irrigation C data s =
    (Ok (PredictionError (str_exn e)),
     printed s3 [PredictionErrorPrinted (str_exn e)]).
Proof.
  intros Hnow Hc Hnow' Hsave.
  rewrite (predict_irrigation_classified _ _ _ _ _ _ _ Hnow Hc Hnow'), Hsave.
  reflexivity.
Qed.

(** C9: once the three encoders have answered, the row handed to the scaler
    has the 14 entries below, in this order, and its scaled form is what the
    classifier sees. *)
Theorem feature_vector_order
    (data : SensorData) (now : datetime) (district_enc zone_enc season_enc : Z) :
  le_district C district = Ok district_enc ->
  le_zone C zone = Ok zone_enc ->
  le_season C season = Ok season_enc ->
  let row :=
    [ Float (soilMoisture data);
      Float (temperature data);
      Float (humidity data);
      Float rainfall_mm_prediction_next_1h;
      Int (hour now);
      Int (Datetime.tm_yday now);
      Int (month now);
      Int district_enc;
      Int zone_enc;
      Int season_enc;
      Int (heat_stress data);
      Int (drought_stress data);
      Float (PyFloat.mul (soilMoisture data) (temperature data));
      Float (PyFloat.mul (humidity data) rainfall_mm_prediction_next_1h) ] in
  feature_vector data now district_enc zone_enc season_enc = row /\
  List.length row = 14%nat /\
  classify C data now = and_then (scaler_transform C row) (model_predict C).
Proof.
  intros Hd Hz Hs row. unfold classify. rewrite Hd, Hz, Hs. cbn [and_then].
  repeat split.
Qed.

End PipelineFacts.

(** C8: the heat flag is 1 exactly when temperature > 35 and humidity < 50,
    the drought flag is 1 exactly when soil moisture < 30 and the rainfall
    placeholder 0.5 is < 1, and both are 0 otherwise; the two readings of the
    scenario give (0, 0) and (1, 1). *)
Theorem stress_flags (data : SensorData) :
  (heat_stress data = 1 <->
     PyFloat.gtb (temperature data) (PyFloat.of_Z 35) = true /\
     PyFloat.ltb (humidity data) (PyFloat.of_Z 50) = true) /\
  (heat_stress data = 0 <-> heat_stress data <> 1) /\
  (drought_stress data = 1 <->
     PyFloat.ltb (soilMoisture data) (PyFloat.of_Z 30) = true /\
     PyFloat.ltb rainfall_mm_prediction_next_1h (PyFloat.of_Z 1) = true) /\
  (drought_stress data = 0 <-> drought_stress data <> 1) /\
  rainfall_mm_prediction_next_1h = PyFloat.of_scaled 1 (-1) /\
  PyFloat.ltb rainfall_mm_prediction_next_1h (PyFloat.of_Z 1) = true /\
  heat_stress (Sim.reading 60 30 45) = 0 /\
  drought_stress (Sim.reading 60 30 45) = 0 /\
  heat_stress (Sim.reading 40 38 20) = 1 /\
  drought_stress (Sim.reading 40 38 20) = 1.
Proof.
  unfold heat_stress, drought_stress, int_and.
  destruct (PyFloat.gtb (temperature data) (PyFloat.of_Z 35));
    destruct (PyFloat.ltb (humidity data) (PyFloat.of_Z 50));
    destruct (PyFloat.ltb (soilMoisture data) (PyFloat.of_Z 30));
    destruct (PyFloat.ltb rainfall_mm_prediction_next_1h (PyFloat.of_Z 1)) eqn:Hrain;
    cbn [Py.int_of_bool];
    repeat split; intros; try reflexivity; try discriminate; try lia;
    try (match goal with H : _ /\ _ |- _ => destruct H; discriminate end).
Qed.

(** The comparisons are strict: at exactly 35 degrees, at exactly 50 percent
    humidity and at exactly 30 percent soil moisture the flags stay 0; a NaN
    compares false and gives 0 as well. *)
Example stress_flags_at_the_thresholds :
  heat_stress (Sim.reading 40 35 20) = 0 /\
  heat_stress (Sim.reading 50 38 20) = 0 /\
  drought_stress (Sim.reading 40 38 30) = 0 /\
  drought_stress (Sim.reading 40 38 29) = 1 /\
  heat_stress {| humidity := PyFloat.of_Z 40; temperature := S754_nan;
                 soilMoisture := S754_nan |} = 0 /\
  drought_stress {| humidity := PyFloat.of_Z 40; temperature := S754_nan;
                    soilMoisture := S754_nan |} = 0.
Proof. repeat split. Qed.

(** ** Properties of the on-demand trigger *)

Section TriggerFacts.

Context {W : Type} (C : Collaborators W).

(** [d.get(key, 0.0)] on a mapping without [key] is [0.0], and [float(0.0)]
    is [0.0]. *)
Lemma float_field_default fields key :
  Py.lookup key fields = None ->
  float_field C (JObj fields) key = Ok PyFloat.zero.
Proof. intros H. unfold float_field. cbn. rewrite H. reflexivity. Qed.

(** The handler of [trigger_prediction] catches everything. *)
Lemma trigger_prediction_returns (s : machine W) :
  exists resp s', trigger_prediction C s = (Ok resp, s').
Proof.
  unfold trigger_prediction, try_except, any_Exception, ret.
  destruct (trigger_prediction_try C s) as [[resp|e] s']; eauto.
Qed.

(** X18: an absent, empty or otherwise falsy node ([null], [{}], [0], [""],
    [[]], [false]) makes the trigger answer "No sensor data found"; the
    pipeline is not called, nothing is printed and nothing but the read
    touched the world. *)
Lemma trigger_prediction_no_data (s : machine W) (v : json) (w1 : W) :
  db_get C "sensorData/raw" (world s) = (Ok v, w1) ->
  Py.truthy v = false ->
  trigger_prediction C s = (Ok (TriggerError "No sensor data found"), at_world s w1).
Proof.
  intros Hget Hv.
  unfold trigger_prediction, try_except, trigger_prediction_try, bind, call.
  rewrite Hget, Hv. reflexivity.
Qed.

(** What the trigger does where the monitor's presence check is missing: on
    a non-empty mapping whose present fields coerce, [0.0] stands in for
    every required field that is absent, the pipeline is called on the
    reading so made up, and the answer is status success around the
    pipeline's result. *)
Theorem trigger_prediction_fills_missing_fields
    (s : machine W) (fields : list (string * json)) (w1 : W) (data : SensorData) :
  db_get C "sensorData/raw" (world s) = (Ok (JObj fields), w1) ->
  Py.truthy (JObj fields) = true ->
  read_SensorData C (JObj fields) = Ok data ->
  (Py.lookup "humidity" fields = None -> humidity data = PyFloat.zero) /\
  (Py.lookup "temperature" fields = None -> temperature data = PyFloat.zero) /\
  (Py.lookup "soilMoisture" fields = None -> soilMoisture data = PyFloat.zero) /\
  exists r s',
    predict_irrigation C data (at_world s w1) = (Ok r, s') /\
    trigger_prediction C s = (Ok (TriggerSuccess r (JObj fields)), s').
Proof.
  intros Hget Htruthy Hread.
  assert (Hfields :
    float_field C (JObj fields) "humidity" = Ok (humidity data) /\
    float_field C (JObj fields) "temperature" = Ok (temperature data) /\
    float_field C (JObj fields) "soilMoisture" = Ok (soilMoisture data)).
  { unfold read_SensorData in Hread.
    destruct (float_field C (JObj fields) "humidity") as [h|]; [ | discriminate].
    destruct (float_field C (JObj fields) "temperature") as [t|]; [ | discriminate].
    destruct (float_field C (JObj fields) "soilMoisture") as [m|]; [ | discriminate].
    cbn in Hread. injection Hread as <-. cbn. repeat split. }
  destruct Hfields as (Hh & Ht & Hm).
  repeat split.
  - intros H. rewrite (float_field_default _ _ H) in Hh. congruence.
  - intros H. rewrite (float_field_default _ _ H) in Ht. congruence.
  - intros H. rewrite (float_field_default _ _ H) in Hm. congruence.
  - destruct (predict_irrigation_returns C data (at_world s w1)) as (r & s' & Hp & _).
    exists r, s'. split; [exact Hp | ].
    unfold trigger_prediction, try_except, trigger_prediction_try, bind, call, pure, ret.
    rewrite Hget.
    rewrite Htruthy, Hread.
    unfold at_world in Hp. rewrite Hp. reflexivity.
Qed.

End TriggerFacts.

(** ** Properties of the background monitor *)

Section MonitorFacts.

Context {W : Type} (C : Collaborators W).

Ltac simp :=
  cbn -[all_in not_in read_SensorData changed predict_irrigation required_fields].

Tactic Notation "simp" "in" hyp(H) :=
  cbn -[all_in not_in read_SensorData changed predict_irrigation required_fields] in H.

Ltac step :=
  unfold monitor_try, process_snapshot, try_except, bind, call, pure, ret,
    print, printed, at_world;
  cbn [world stdout fst snd].

(** The bookkeeping of one pass, given how the body of the [try] ended. *)
Lemma monitor_iteration_ok st s st' s' :
  monitor_try C st s = (Ok st', s') ->
  monitor_iteration C st s =
    ((st', Continue), at_world s' (time_sleep C 5 (world s'))).
Proof. intros H. unfold monitor_iteration. rewrite H. reflexivity. Qed.

Lemma monitor_iteration_raise st s e s' :
  monitor_try C st s = (Raise e, s') ->
  let n := consecutive_errors st + 1 in
  let st' := {| last_values := last_values st; consecutive_errors := n |} in
  monitor_iteration C st s =
    if n >=? max_errors then
      ((st', Break),
       printed s' [ErrorWhileMonitoring n e; TooManyConsecutiveErrors max_errors])
    else
      ((st', Continue),
       at_world (printed s' [ErrorWhileMonitoring n e])
                (time_sleep C 5 (world s'))).
Proof.
  intros H n st'. unfold monitor_iteration. rewrite H.
  cbn [consecutive_errors last_values]. fold n.
  destruct (n >=? max_errors); unfold print, printed, at_world; cbn;
    rewrite <- ?app_assoc; reflexivity.
Qed.

(** The read of the node raises. *)
Lemma monitor_try_read_raises st s e w1 :
  db_get C "sensorData" (world s) = (Raise e, w1) ->
  monitor_try C st s = (Raise e, at_world s w1).
Proof. intros H. step. rewrite H. reflexivity. Qed.

(** The node is absent. *)
Lemma monitor_try_no_data st s w1 :
  db_get C "sensorData" (world s) = (Ok JNull, w1) ->
  monitor_try C st s =
    (Ok st, printed (at_world s w1) [CurrentSensorData JNull; NoSensorDataFound]).
Proof.
  intros H. step. rewrite H. cbn. rewrite <- app_assoc. reflexivity.
Qed.

(** The node is there and equal to the one processed last. *)
Lemma monitor_try_unchanged st s current w1 :
  db_get C "sensorData" (world s) = (Ok current, w1) ->
  current <> JNull ->
  changed st current = false ->
  monitor_try C st s =
    (Ok st, printed (at_world s w1) [CurrentSensorData current; NoChangeDetected]).
Proof.
  intros H Hnn Hch. step. rewrite H. cbn.
  destruct current; try congruence; rewrite Hch; cbn;
    rewrite <- app_assoc; reflexivity.
Qed.

(** A reading can only be taken from a mapping. *)
Lemma read_SensorData_mapping current data :
  read_SensorData C current = Ok data ->
  exists fields, current = JObj fields.
Proof.
  destruct current; try discriminate. eauto.
Qed.

(** The node is there, changed, complete and coercible. *)
Lemma monitor_try_processed st s current w1 data r s2 :
  db_get C "sensorData" (world s) = (Ok current, w1) ->
  changed st current = true ->
  all_in required_fields current = Ok true ->
  read_SensorData C current = Ok data ->
  predict_irrigation C data
    (printed (at_world s w1)
       [CurrentSensorData current; DetectedChange (last_values st) current])
    = (Ok r, s2) ->
  monitor_try C st s =
    (Ok {| last_values := Some current; consecutive_errors := 0 |},
     printed s2 [PredictionResultPrinted r]).
Proof.
  intros H Hch Hall Hread Hp.
  destruct (read_SensorData_mapping _ _ Hread) as [fields ->].
  step. rewrite H. simp. rewrite Hch. simp. rewrite Hall, Hread. simp.
  unfold printed, at_world in Hp. simp in Hp. rewrite <- app_assoc. simp.
  rewrite Hp. reflexivity.
Qed.

(** A mapping that passed the presence check has the required fields. *)
Lemma all_in_has_required_fields fields :
  all_in required_fields (JObj fields) = Ok true ->
  has_required_fields (JObj fields) = true.
Proof.
  cbn.
  destruct (Py.lookup "humidity" fields); [ | discriminate].
  destruct (Py.lookup "temperature" fields); [ | discriminate].
  destruct (Py.lookup "soilMoisture" fields); [ | discriminate].
  reflexivity.
Qed.

(** What the body of the [try] can do to the two variables: nothing, or
    store a mapping that passed the presence check and zero the counter. *)
Lemma monitor_try_state st s st' s' :
  monitor_try C st s = (Ok st', s') ->
  st' = st \/
  exists fields,
    all_in required_fields (JObj fields) = Ok true /\
    st' = {| last_values := Some (JObj fields); consecutive_errors := 0 |}.
Proof.
  step.
  destruct (db_get C "sensorData" (world s)) as [[current|e] w1]; [ | discriminate].
  simp.
  assert (Hskip : forall l,
    (Ok st, {| world := w1; stdout := l |}) = (Ok st', s') -> st' = st)
    by (intros l E; congruence).
  destruct current; simp; try (intros E; left; eapply Hskip; exact E);
    (destruct (changed st _); simp; [ | intros E; left; eapply Hskip; exact E]);
    match goal with |- context [all_in required_fields ?v] =>
      destruct (all_in required_fields v) as [[|]|e] eqn:Hall
    end; simp; try discriminate.
  - (* a complete mapping *)
    destruct (read_SensorData C (JObj fields)) as [data|e] eqn:Hread; simp.
    + match goal with |- context [predict_irrigation C data ?m] =>
        destruct (predict_irrigation_returns C data m) as (r & s2 & Hp & _)
      end.
      rewrite Hp. simp. intros E. right. exists fields. split; [exact Hall | ].
      congruence.
    + destruct (ValueError_or_TypeError e); [ | discriminate].
      intros E; left; eapply Hskip; exact E.
  - (* an incomplete mapping *)
    destruct (not_in required_fields (JObj fields)) as [missing|e]; simp;
      [ | discriminate].
    intros E; left; eapply Hskip; exact E.
Qed.

Lemma pipeline_calls_app (l l' : list line) :
  pipeline_calls (l ++ l')%list = (pipeline_calls l + pipeline_calls l')%nat.
Proof. unfold pipeline_calls. rewrite filter_app, length_app. reflexivity. Qed.

Lemma pipeline_calls_result_line (r : PredictionResult) :
  pipeline_calls [result_line r] = 1%nat.
Proof. destruct r; reflexivity. Qed.

(** A mapping that passed the presence check is not empty. *)
Lemma all_in_truthy current data :
  all_in required_fields current = Ok true ->
  read_SensorData C current = Ok data ->
  Py.truthy current = true.
Proof.
  intros Hall Hread.
  destruct (read_SensorData_mapping _ _ Hread) as [fields ->].
  destruct fields; [discriminate | reflexivity].
Qed.

Lemma monitor_iteration_keeps_last_values_ok st s :
  last_values_ok st = true ->
  last_values_ok (fst (fst (monitor_iteration C st s))) = true.
Proof.
  intros Hst.
  destruct (monitor_try C st s) as [[st'|e] s'] eqn:Htry.
  - rewrite (monitor_iteration_ok _ _ _ _ Htry). cbn [fst].
    destruct (monitor_try_state _ _ _ _ Htry) as [-> | (fields & Hall & ->)];
      [exact Hst | ].
    unfold last_values_ok. cbn [last_values].
    apply all_in_has_required_fields, Hall.
  - rewrite (monitor_iteration_raise _ _ _ _ Htry).
    destruct (_ >=? _); exact Hst.
Qed.

(** C10: [last_values] is [None] or a mapping with the keys humidity,
    temperature and soilMoisture, and any number of passes of the loop keeps
    it so. *)
Theorem last_values_ok_invariant (n : nat) (st : PollerState) (s : machine W) :
  last_values_ok st = true ->
  last_values_ok (fst (fst (monitor_loop C n st s))) = true.
Proof.
  revert st s. induction n as [|n IH]; intros st s Hst; [exact Hst | ].
  cbn [monitor_loop].
  pose proof (monitor_iteration_keeps_last_values_ok st s Hst) as Hnext.
  destruct (monitor_iteration C st s) as [[st' [|]] s']; cbn [fst] in *.
  - apply IH, Hnext.
  - exact Hnext.
Qed.

(** C4: a changed, complete, coercible snapshot becomes [last_values]
    whatever result [r] the pipeline returned, an error result included; a
    next pass that reads the same snapshot finds no change and leaves the
    pipeline alone. *)
Theorem snapshot_marked_processed
    (st : PollerState) (s : machine W) (current : json) (w1 : W)
    (data : SensorData) (r : PredictionResult) (s2 : machine W) :
  db_get C "sensorData" (world s) = (Ok current, w1) ->
  changed st current = true ->
  all_in required_fields current = Ok true ->
  read_SensorData C current = Ok data ->
  predict_irrigation C data
    (printed (at_world s w1)
       [CurrentSensorData current; DetectedChange (last_values st) current])
    = (Ok r, s2) ->
  let st' := {| last_values := Some current; consecutive_errors := 0 |} in
  let s' := at_world (printed s2 [PredictionResultPrinted r])
                     (time_sleep C 5 (world s2)) in
  monitor_iteration C st s = ((st', Continue), s') /\
  forall w3,
    db_get C "sensorData" (world s') = (Ok current, w3) ->
    Py.eq current current = true ->
    monitor_iteration C st' s' =
      ((st', Continue),
       at_world (printed s' [CurrentSensorData current; NoChangeDetected])
                (time_sleep C 5 w3)).
Proof.
  intros Hget Hch Hall Hread Hp st' s'. split.
  - rewrite (monitor_iteration_ok _ _ _ _
               (monitor_try_processed _ _ _ _ _ _ _ Hget Hch Hall Hread Hp)).
    reflexivity.
  - intros w3 Hget' Heq.
    assert (Hsame : changed st' current = false).
    { unfold changed, st', Py.ne. cbn [last_values].
      rewrite Heq, (all_in_truthy _ _ Hall Hread). reflexivity. }
    assert (Hnn : current <> JNull).
    { destruct (read_SensorData_mapping _ _ Hread) as [fields ->]. discriminate. }
    rewrite (monitor_iteration_ok _ _ _ _
               (monitor_try_unchanged _ _ _ _ Hget' Hnn Hsame)).
    reflexivity.
Qed.

(** A stored snapshot with the required fields is a non-empty mapping. *)
Lemma has_required_fields_truthy previous :
  has_required_fields previous = true -> Py.truthy previous = true.
Proof.
  destruct previous; try discriminate.
  destruct fields; [discriminate | reflexivity].
Qed.

Lemma eq_mapping_not_null current previous :
  has_required_fields previous = true ->
  Py.eq current previous = true ->
  current <> JNull.
Proof.
  intros Hp Heq ->. destruct previous; discriminate.
Qed.

(** One pass that reads a snapshot equal to [last_values]: nothing printed by
    the pipeline, both variables as before. *)
Lemma unchanged_snapshot_skipped st s current previous w1 :
  last_values st = Some previous ->
  has_required_fields previous = true ->
  db_get C "sensorData" (world s) = (Ok current, w1) ->
  Py.eq current previous = true ->
  monitor_iteration C st s =
    ((st, Continue),
     at_world (printed s [CurrentSensorData current; NoChangeDetected])
              (time_sleep C 5 w1)).
Proof.
  intros Hlast Hok Hget Heq.
  assert (Hsame : changed st current = false).
  { unfold changed, Py.ne. rewrite Hlast, Heq, (has_required_fields_truthy _ Hok).
    reflexivity. }
  rewrite (monitor_iteration_ok _ _ _ _
             (monitor_try_unchanged _ _ _ _ Hget
                (eq_mapping_not_null _ _ Hok Heq) Hsame)).
  reflexivity.
Qed.

(** One pass that reads a changed, complete and coercible snapshot: the
    pipeline runs once and the snapshot is stored. *)
Lemma changed_snapshot_processed st s current w1 data :
  db_get C "sensorData" (world s) = (Ok current, w1) ->
  changed st current = true ->
  all_in required_fields current = Ok true ->
  read_SensorData C current = Ok data ->
  exists r s2,
    predict_irrigation C data
      (printed (at_world s w1)
         [CurrentSensorData current; DetectedChange (last_values st) current])
      = (Ok r, s2) /\
    monitor_iteration C st s =
      (({| last_values := Some current; consecutive_errors := 0 |}, Continue),
       at_world (printed s2 [PredictionResultPrinted r])
                (time_sleep C 5 (world s2))) /\
    pipeline_calls (stdout s2 ++ [PredictionResultPrinted r])%list =
      (pipeline_calls (stdout s) + 1)%nat.
Proof.
  intros Hget Hch Hall Hread.
  destruct (predict_irrigation_returns C data
              (printed (at_world s w1)
                 [CurrentSensorData current;
                  DetectedChange (last_values st) current]))
    as (r & s2 & Hp & Hout).
  exists r, s2. split; [exact Hp | split].
  - rewrite (monitor_iteration_ok _ _ _ _
               (monitor_try_processed _ _ _ _ _ _ _ Hget Hch Hall Hread Hp)).
    reflexivity.
  - rewrite Hout. cbn [at_world printed stdout].
    rewrite !pipeline_calls_app, pipeline_calls_result_line. cbn. lia.
Qed.

(** [last_values] unset, or set to something the snapshot differs from: the
    snapshot counts as changed. *)
Lemma changed_when_unset_or_different st current :
  last_values st = None \/
  (exists previous, last_values st = Some previous /\ Py.eq current previous = false) ->
  changed st current = true.
Proof.
  unfold changed, Py.ne. intros [-> | (previous & -> & ->)]; reflexivity.
Qed.

(** C7: in a pass that reads the snapshot [current], with [last_values] kept
    as the monitor keeps it: if [current] equals [last_values] the pipeline
    is not called and nothing changes; if [last_values] is unset or
    [current] differs from it, and [current] is complete and coercible, the
    pipeline is called once and [current] is stored.  So, from the start, a
    pass that reads [A] and a pass that reads [A] again call the pipeline
    once, and passes that read [A] and then a differing [B] call it twice. *)
Theorem change_detection :
  (forall (st : PollerState) (s : machine W) (current : json) (w1 : W),
     last_values_ok st = true ->
     db_get C "sensorData" (world s) = (Ok current, w1) ->
     let pass := monitor_iteration C st s in
     (forall previous,
        last_values st = Some previous ->
        Py.eq current previous = true ->
        fst pass = (st, Continue) /\
        pipeline_calls (stdout (snd pass)) = pipeline_calls (stdout s)) /\
     (last_values st = None \/
      (exists previous,
         last_values st = Some previous /\ Py.eq current previous = false) ->
      forall data,
        all_in required_fields current = Ok true ->
        read_SensorData C current = Ok data ->
        fst pass =
          ({| last_values := Some current; consecutive_errors := 0 |}, Continue) /\
        pipeline_calls (stdout (snd pass)) = (pipeline_calls (stdout s) + 1)%nat)) /\
  (forall (s0 : machine W) (A B : json) (dataA : SensorData) (w1 w2 : W),
     db_get C "sensorData" (world s0) = (Ok A, w1) ->
     all_in required_fields A = Ok true ->
     read_SensorData C A = Ok dataA ->
     db_get C "sensorData" (world (snd (monitor_loop C 1 initial_state s0)))
       = (Ok B, w2) ->
     let log := stdout (snd (monitor_loop C 2 initial_state s0)) in
     (Py.eq B A = true ->
        pipeline_calls log = (pipeline_calls (stdout s0) + 1)%nat) /\
     (Py.eq B A = false ->
        forall dataB,
          all_in required_fields B = Ok true ->
          read_SensorData C B = Ok dataB ->
          pipeline_calls log = (pipeline_calls (stdout s0) + 2)%nat)).
Proof.
  assert (Hpass :
    forall (st : PollerState) (s : machine W) (current : json) (w1 : W),
      last_values_ok st = true ->
      db_get C "sensorData" (world s) = (Ok current, w1) ->
      let pass := monitor_iteration C st s in
      (forall previous,
         last_values st = Some previous ->
         Py.eq current previous = true ->
         fst pass = (st, Continue) /\
         pipeline_calls (stdout (snd pass)) = pipeline_calls (stdout s)) /\
      (last_values st = None \/
       (exists previous,
          last_values st = Some previous /\ Py.eq current previous = false) ->
       forall data,
         all_in required_fields current = Ok true ->
         read_SensorData C current = Ok data ->
         fst pass =
           ({| last_values := Some current; consecutive_errors := 0 |}, Continue) /\
         pipeline_calls (stdout (snd pass)) = (pipeline_calls (stdout s) + 1)%nat)).
  { intros st s current w1 Hst Hget pass. split.
    - intros previous Hlast Heq.
      assert (Hok : has_required_fields previous = true)
        by (unfold last_values_ok in Hst; rewrite Hlast in Hst; exact Hst).
      unfold pass.
      rewrite (unchanged_snapshot_skipped _ _ _ _ _ Hlast Hok Hget Heq).
      split; [reflexivity | ].
      cbn [snd at_world printed stdout]. rewrite pipeline_calls_app. cbn. lia.
    - intros Hdiff data Hall Hread.
      destruct (changed_snapshot_processed _ _ _ _ _ Hget
                  (changed_when_unset_or_different _ _ Hdiff) Hall Hread)
        as (r & s2 & _ & Hit & Hcalls).
      unfold pass. rewrite Hit. split; [reflexivity | exact Hcalls]. }
  split; [exact Hpass | ].
  intros s0 A B dataA w1 w2 HgetA HallA HreadA HgetB log.
  subst log. revert HgetB. cbn [monitor_loop].
  destruct (Hpass initial_state s0 A w1 eq_refl HgetA) as [_ Hfirst].
  destruct (Hfirst (or_introl eq_refl) dataA HallA HreadA) as [HstA HcallsA].
  destruct (monitor_iteration C initial_state s0) as [[stA cA] sA].
  cbn [fst snd] in HstA, HcallsA. injection HstA as -> ->.
  cbn [snd]. intros HgetB.
  assert (HokA : last_values_ok
                   {| last_values := Some A; consecutive_errors := 0 |} = true).
  { unfold last_values_ok. cbn [last_values].
    destruct (read_SensorData_mapping _ _ HreadA) as [fields ->].
    apply all_in_has_required_fields, HallA. }
  destruct (Hpass _ sA B w2 HokA HgetB) as [Hsame Hdiff].
  split.
  - intros Heq. destruct (Hsame A eq_refl Heq) as [Hst Hcalls].
    destruct (monitor_iteration C _ sA) as [[stB cB] sB].
    cbn [fst snd] in Hst, Hcalls. injection Hst as -> ->.
    cbn [snd]. lia.
  - intros Hne dataB HallB HreadB.
    destruct (Hdiff (or_intror (ex_intro _ A (conj eq_refl Hne)))
                dataB HallB HreadB) as [Hst Hcalls].
    destruct (monitor_iteration C _ sA) as [[stB cB] sB].
    cbn [fst snd] in Hst, Hcalls. injection Hst as -> ->.
    cbn [snd]. lia.
Qed.

(** *** The error counter *)

(** X20: a pass leaves the loop exactly when its body raised and that made
    the counter reach the ceiling. *)
Lemma monitor_iteration_break_iff st s :
  snd (fst (monitor_iteration C st s)) = Break <->
  (exists e s', monitor_try C st s = (Raise e, s')) /\
  consecutive_errors st + 1 >= max_errors.
Proof.
  destruct (monitor_try C st s) as [[st'|e] s'] eqn:Htry.
  - rewrite (monitor_iteration_ok _ _ _ _ Htry). cbn [fst snd].
    split; [discriminate | intros [(e & s'' & [=]) _]].
  - rewrite (monitor_iteration_raise _ _ _ _ Htry).
    destruct (consecutive_errors st + 1 >=? max_errors) eqn:Hn; cbn [fst snd].
    + split; [ | reflexivity]. intros _. split; [eauto | ].
      apply Z.geb_le in Hn. lia.
    + split; [discriminate | ]. intros [_ Hge].
      assert (Ht : (consecutive_errors st + 1 >=? max_errors) = true)
        by (apply Z.geb_le; lia).
      congruence.
Qed.

(** A pass that does not leave the loop sleeps 5 seconds at its end. *)
Lemma monitor_iteration_sleeps st s :
  snd (fst (monitor_iteration C st s)) = Continue ->
  world (snd (monitor_iteration C st s)) =
    time_sleep C 5 (world (snd (monitor_try C st s))).
Proof.
  destruct (monitor_try C st s) as [[st'|e] s'] eqn:Htry.
  - rewrite (monitor_iteration_ok _ _ _ _ Htry). reflexivity.
  - rewrite (monitor_iteration_raise _ _ _ _ Htry).
    destruct (_ >=? _); [discriminate | reflexivity].
Qed.

(** A pass whose body raised adds one to the counter; a pass whose body
    returned leaves the counter alone or, after a processed snapshot, puts
    it back to zero. *)
Lemma monitor_iteration_counter st s :
  let n := consecutive_errors (fst (fst (monitor_iteration C st s))) in
  match fst (monitor_try C st s) with
  | Raise _ => n = consecutive_errors st + 1
  | Ok st' => n = consecutive_errors st' /\
              (st' = st \/ consecutive_errors st' = 0)
  end.
Proof.
  destruct (monitor_try C st s) as [[st'|e] s'] eqn:Htry; cbn [fst].
  - rewrite (monitor_iteration_ok _ _ _ _ Htry). cbn [fst]. split; [reflexivity | ].
    destruct (monitor_try_state _ _ _ _ Htry) as [-> | (fields & _ & ->)]; auto.
  - rewrite (monitor_iteration_raise _ _ _ _ Htry).
    destruct (_ >=? _); reflexivity.
Qed.

(** Passes compose. *)
Lemma monitor_loop_add n m st s :
  monitor_loop C (n + m) st s =
    match monitor_loop C n st s with
    | ((st', Break), s') => ((st', Break), s')
    | ((st', Continue), s') => monitor_loop C m st' s'
    end.
Proof.
  revert st s. induction n as [|n IH]; intros st s; cbn [monitor_loop Nat.add].
  - reflexivity.
  - destruct (monitor_iteration C st s) as [[st' [|]] s']; [apply IH | reflexivity].
Qed.

(** Once left, the loop is not entered again: more passes change nothing. *)
Lemma monitor_loop_stopped n m st s :
  snd (fst (monitor_loop C n st s)) = Break ->
  monitor_loop C (n + m) st s = monitor_loop C n st s.
Proof.
  intros H. rewrite monitor_loop_add.
  destruct (monitor_loop C n st s) as [[st' [|]] s']; [discriminate | reflexivity].
Qed.

(** Failed reads below the ceiling: the loop goes on, counting them. *)
Lemma failed_reads_counted n m st s :
  reads_fail C (n + m) (world s) ->
  consecutive_errors st + Z.of_nat n < max_errors ->
  exists s',
    monitor_loop C n st s = ((more_errors (Z.of_nat n) st, Continue), s') /\
    reads_fail C m (world s').
Proof.
  revert st s. induction n as [|n IH]; intros st s Hfail Hlt.
  - exists s. split; [ | exact Hfail].
    unfold more_errors. cbn. rewrite Z.add_0_r. destruct st; reflexivity.
  - cbn [Nat.add reads_fail] in Hfail. destruct Hfail as (e & w1 & Hget & Hfail).
    cbn [monitor_loop].
    rewrite (monitor_iteration_raise _ _ _ _ (monitor_try_read_raises st s e w1 Hget)).
    assert (Hn : (consecutive_errors st + 1 >=? max_errors) = false).
    { destruct (consecutive_errors st + 1 >=? max_errors) eqn:E; [ | reflexivity].
      apply Z.geb_le in E. lia. }
    rewrite Hn.
    match goal with |- context [monitor_loop C n ?st1 ?s1] =>
      destruct (IH st1 s1) as (s' & Hloop & Hrest);
        [exact Hfail | cbn [consecutive_errors]; lia | ]
    end.
    exists s'. split; [ | exact Hrest].
    rewrite Hloop. unfold more_errors. cbn [last_values consecutive_errors].
    replace (consecutive_errors st + 1 + Z.of_nat n)
      with (consecutive_errors st + Z.of_nat (S n)) by lia.
    reflexivity.
Qed.

(** X19: five failed reads in a row, counted from zero, stop the loop at the
    fifth and not before. *)
Lemma five_failed_reads_stop st s :
  consecutive_errors st = 0 ->
  reads_fail C 5 (world s) ->
  fst (monitor_loop C 4 st s) = (more_errors 4 st, Continue) /\
  fst (monitor_loop C 5 st s) = (more_errors 5 st, Break).
Proof.
  intros Hzero Hfail.
  destruct (failed_reads_counted 4 1 st s Hfail) as (s4 & Hloop & Hlast);
    [rewrite Hzero; reflexivity | ].
  change (Z.of_nat 4) with 4 in Hloop.
  split; [rewrite Hloop; reflexivity | ].
  change 5%nat with (4 + 1)%nat. rewrite monitor_loop_add, Hloop.
  destruct Hlast as (e & w1 & Hget & _).
  cbn [monitor_loop].
  rewrite (monitor_iteration_raise _ _ _ _
             (monitor_try_read_raises (more_errors 4 st) s4 e w1 Hget)).
  unfold more_errors. cbn [consecutive_errors last_values]. rewrite Hzero.
  reflexivity.
Qed.

End MonitorFacts.

(** ** The program on the scripted world *)

Section Runs.

Let C := Sim.collaborators.
Let A := Sim.snapshot 60 30 45.

(** C1, as stated, fails: the classifier answers class 2, the first write
    raises, and the caller gets the error result, not the class. *)
Lemma write_failure_is_not_swallowed :
  let data := Sim.reading 60 30 45 in
  let s := Sim.boot [] ["sensorData/prediction_class"] in
  classify C data Sim.clock = Ok 2 /\
  fst (save_result C 2 (Datetime.isoformat Sim.clock) s) = Raise Sim.store_down /\
  fst (predict_irrigation C data s) = Ok (PredictionError "store unavailable") /\
  fst (predict_irrigation C data s) <> Ok (Prediction 2 (Datetime.isoformat Sim.clock)).
Proof. repeat split; try reflexivity. discriminate. Qed.

Lemma predict_irrigation_write_failure_witness :
  let data := Sim.reading 60 30 45 in
  let s := Sim.boot [] ["sensorData/last_prediction_time"] in
  exists s3,
    save_result C 2 (Datetime.isoformat Sim.clock) s = (Raise Sim.store_down, s3) /\
    predict_irrigation C data s =
      (Ok (PredictionError "store unavailable"),
       printed s3 [PredictionErrorPrinted "store unavailable"]).
Proof.
  intros data s. eexists. split; [reflexivity | ].
  apply (predict_irrigation_write_failure C data s Sim.clock Sim.clock
           (world s) (world s) 2 Sim.store_down); reflexivity.
Defined.

Lemma feature_vector_order_witness :
  List.length (feature_vector (Sim.reading 40 38 20) Sim.clock 7 4 3) = 14%nat /\
  nth_error (feature_vector (Sim.reading 40 38 20) Sim.clock 7 4 3) 7 = Some (Int 7).
Proof.
  destruct (feature_vector_order C (Sim.reading 40 38 20) Sim.clock 7 4 3
              eq_refl eq_refl eq_refl) as (Hrow & Hlen & _).
  rewrite Hrow. split; [exact Hlen | reflexivity].
Defined.

(** C3 on the code: the node lacks [soilMoisture].  The trigger, which has
    no presence check, makes up a reading with soil moisture [0.0], sends it
    through the pipeline and answers with status success around a class,
    where the claim asks for an error result.  The monitor builds the reading
    from the same node in the same way, but behind its presence check: it
    reports the missing field and does not call the pipeline. *)
Lemma trigger_accepts_incomplete_snapshot :
  has_required_fields Sim.incomplete = false /\
  fst (trigger_prediction C (Sim.boot [Ok Sim.incomplete] [])) =
    Ok (TriggerSuccess (Prediction 2 "2024-03-09T14:05:07") Sim.incomplete) /\
  read_SensorData C Sim.incomplete =
    Ok {| humidity := PyFloat.of_Z 60; temperature := PyFloat.of_Z 30;
          soilMoisture := PyFloat.zero |} /\
  pipeline_calls
    (stdout (snd (trigger_prediction C (Sim.boot [Ok Sim.incomplete] [])))) = 1%nat /\
  pipeline_calls
    (stdout (snd (monitor_iteration C initial_state
                    (Sim.boot [Ok Sim.incomplete] [])))) = 0%nat /\
  In (MissingRequiredFields ["soilMoisture"])
     (stdout (snd (monitor_iteration C initial_state
                     (Sim.boot [Ok Sim.incomplete] [])))).
Proof. repeat split; try reflexivity. vm_compute. auto. Qed.

Lemma trigger_prediction_fills_missing_fields_witness :
  let s := Sim.boot [Ok Sim.incomplete] [] in
  exists data r s',
    soilMoisture data = PyFloat.zero /\
    predict_irrigation C data (at_world s (world (Sim.boot [] []))) = (Ok r, s') /\
    trigger_prediction C s = (Ok (TriggerSuccess r Sim.incomplete), s').
Proof.
  intros s.
  destruct (trigger_prediction_fills_missing_fields C s
              [("humidity", JInt 60); ("temperature", JInt 30)]
              (world (Sim.boot [] []))
              {| humidity := PyFloat.of_Z 60; temperature := PyFloat.of_Z 30;
                 soilMoisture := PyFloat.zero |}
              eq_refl eq_refl eq_refl)
    as (_ & _ & Hm & r & s' & Hp & Ht).
  eexists; exists r, s'. split; [exact (Hm eq_refl) | split; [exact Hp | exact Ht]].
Defined.

(** C2 on the code: four failed reads, then a read that succeeds and finds
    the node absent, then one failed read.  The successful read leaves the
    counter at 4, and the single failure after it stops the monitor. *)
Theorem counter_survives_successful_read :
  let script := [Sim.down; Sim.down; Sim.down; Sim.down; Ok JNull; Sim.down] in
  fst (monitor_firebase_sensor_data C 4 (Sim.boot script [])) =
    ({| last_values := None; consecutive_errors := 4 |}, Continue) /\
  fst (monitor_firebase_sensor_data C 5 (Sim.boot script [])) =
    ({| last_values := None; consecutive_errors := 4 |}, Continue) /\
  fst (monitor_firebase_sensor_data C 6 (Sim.boot script [])) =
    ({| last_values := None; consecutive_errors := 5 |}, Break).
Proof. repeat split; vm_compute; reflexivity. Qed.

(** C6 on the code: the failed reads never come more than two in a row,
    every second pass in between reads the unchanged snapshot successfully,
    and the monitor stops at the fifth failure all the same. *)
Theorem monitor_stops_without_five_failures_in_a_row :
  let script := [Ok A; Sim.down; Sim.down; Ok A; Sim.down; Sim.down; Ok A; Sim.down] in
  fst (monitor_firebase_sensor_data C 1 (Sim.boot script [])) =
    ({| last_values := Some A; consecutive_errors := 0 |}, Continue) /\
  fst (monitor_firebase_sensor_data C 7 (Sim.boot script [])) =
    ({| last_values := Some A; consecutive_errors := 4 |}, Continue) /\
  fst (monitor_firebase_sensor_data C 8 (Sim.boot script [])) =
    ({| last_values := Some A; consecutive_errors := 5 |}, Break).
Proof. repeat split; vm_compute; reflexivity. Qed.

Lemma last_values_ok_invariant_witness :
  last_values_ok
    (fst (fst (monitor_loop C 3 initial_state
                 (Sim.boot [Ok A; Sim.down; Ok Sim.incomplete] [])))) = true.
Proof.
  apply (last_values_ok_invariant C 3 initial_state). reflexivity.
Defined.

Lemma snapshot_marked_processed_witness :
  let s := Sim.boot [Ok A; Ok A] ["sensorData/prediction_class"] in
  let st' := {| last_values := Some A; consecutive_errors := 0 |} in
  exists s' s'',
    In (PredictionErrorPrinted "store unavailable") (stdout s') /\
    monitor_iteration C initial_state s = ((st', Continue), s') /\
    monitor_iteration C st' s' = ((st', Continue), s'') /\
    pipeline_calls (stdout s'') = pipeline_calls (stdout s').
Proof.
  intros s st'.
  destruct (snapshot_marked_processed C initial_state s A _ _ _ _
              eq_refl eq_refl eq_refl eq_refl eq_refl) as [Hfirst Hnext].
  eexists; eexists.
  split; [ | split; [exact Hfirst | split; [apply Hnext; reflexivity | ]]].
  - vm_compute. auto.
  - reflexivity.
Defined.

Lemma change_detection_witness :
  pipeline_calls
    (stdout (snd (monitor_loop C 2 initial_state (Sim.boot [Ok A; Ok A] []))))
    = 1%nat.
Proof.
  destruct (proj2 (change_detection C) (Sim.boot [Ok A; Ok A] []) A A
              (Sim.reading 60 30 45) (world (Sim.boot [Ok A] [])) _
              eq_refl eq_refl eq_refl eq_refl) as [Hsame _].
  exact (Hsame eq_refl).
Defined.

End Runs.

(** ** Further properties of the pipeline, the trigger and the health check *)

Section EndpointFacts.

Context {W : Type} (C : Collaborators W).

(** X1: the caller gets a class exactly when the classifier answered it and
    both writes went through; the timestamp is then the second reading of
    the clock. *)
Theorem prediction_iff_classified_and_saved
    (data : SensorData) (s : machine W) (now now' : datetime) (w1 w2 : W)
    (c : Z) (t : string) :
  datetime_now C (world s) = (now, w1) ->
  datetime_now C w1 = (now', w2) ->
  fst (predict_irrigation C data s) = Ok (Prediction c t) <->
  classify C data now = Ok c /\
  t = Datetime.isoformat now' /\
  fst (save_result C c t (at_world s w2)) = Ok tt.
Proof.
  intros Hnow Hnow'.
  destruct (classify C data now) as [c0|e] eqn:Hc.
  - rewrite (predict_irrigation_classified C _ _ _ _ _ _ _ Hnow Hc Hnow').
    destruct (save_result C c0 (Datetime.isoformat now') (at_world s w2))
      as [[[]|e] s'] eqn:Hsave; cbn [fst]; split.
    + intros [= <- <-]. rewrite Hsave. auto.
    + intros ([= <-] & -> & _). reflexivity.
    + discriminate.
    + intros ([= <-] & -> & Hok). rewrite Hsave in Hok. discriminate.
  - rewrite (predict_irrigation_classify_raises C _ _ _ _ _ Hnow Hc). cbn [fst].
    split; [discriminate | intros (H & _); discriminate].
Qed.

(** X2: when an encoder, the scaler or the model raises, the caller gets the
    message as an error result, one error line is printed, and the world is
    the one the first reading of the clock left: no write was attempted. *)
Theorem classification_failure_writes_nothing
    (data : SensorData) (s : machine W) (now : datetime) (w1 : W) (e : exn) :
  datetime_now C (world s) = (now, w1) ->
  classify C data now = Raise e ->
  fst (predict_irrigation C data s) = Ok (PredictionError (str_exn e)) /\
  world (snd (predict_irrigation C data s)) = w1 /\
  stdout (snd (predict_irrigation C data s)) =
    (stdout s ++ [PredictionErrorPrinted (str_exn e)])%list.
Proof.
  intros Hnow Hc.
  rewrite (predict_irrigation_classify_raises C _ _ _ _ _ Hnow Hc).
  repeat split.
Qed.

(** X3: when the write of the class goes through and the write of the
    timestamp raises, the caller gets the error result although the class is
    in the store: the world is the one the failed second write left, after
    the first. *)
Theorem class_stays_written_when_time_write_fails
    (data : SensorData) (s : machine W) (now now' : datetime) (w1 w2 w3 w4 : W)
    (c : Z) (e : exn) :
  datetime_now C (world s) = (now, w1) ->
  classify C data now = Ok c ->
  datetime_now C w1 = (now', w2) ->
  db_set C "sensorData/prediction_class" (JInt c) w2 = (Ok tt, w3) ->
  db_set C "sensorData/last_prediction_time"
    (JStr (Datetime.isoformat now')) w3 = (Raise e, w4) ->
  predict_irrigation C data s =
    (Ok (PredictionError (str_exn e)),
     printed (at_world s w4) [PredictionErrorPrinted (str_exn e)]).
Proof.
  intros Hnow Hc Hnow' H1 H2.
  rewrite (predict_irrigation_classified C _ _ _ _ _ _ _ Hnow Hc Hnow').
  rewrite save_result_unfold. cbn [at_world world]. rewrite H1, H2. reflexivity.
Qed.

(** X4: a node that is there but is not a mapping (a number, [true], a
    non-empty string or list) makes the trigger answer with status error and
    the message of the failed [.get], which names the type of the node; the
    pipeline is not called. *)
Theorem trigger_prediction_not_a_mapping
    (s : machine W) (current : json) (w1 : W) :
  db_get C "sensorData/raw" (world s) = (Ok current, w1) ->
  Py.truthy current = true ->
  is_mapping current = false ->
  trigger_prediction C s =
    (Ok (TriggerError
           ("'" ++ Py.type_name current ++ "' object has no attribute 'get'")),
     at_world s w1).
Proof.
  intros Hget Htruthy Hmap.
  unfold trigger_prediction, try_except, trigger_prediction_try, bind, call, pure.
  rewrite Hget, Htruthy.
  destruct current; try discriminate; reflexivity.
Qed.

(** X5: the trigger never raises, prints nothing of its own, and answers
    with status success exactly when it called the pipeline, which it does
    at most once. *)
Theorem trigger_prediction_success_iff_pipeline_ran (s : machine W) :
  exists resp s',
    trigger_prediction C s = (Ok resp, s') /\
    match resp with
    | TriggerSuccess r _ => stdout s' = (stdout s ++ [result_line r])%list
    | TriggerError _ => stdout s' = stdout s
    end.
Proof.
  unfold trigger_prediction, try_except, trigger_prediction_try, bind, call,
    pure, ret, any_Exception.
  destruct (db_get C "sensorData/raw" (world s)) as [[current|e] w1];
    [ | eexists; eexists; split; reflexivity].
  destruct (Py.truthy current); [ | eexists; eexists; split; reflexivity].
  destruct (read_SensorData C current) as [data|e];
    [ | eexists; eexists; split; reflexivity].
  destruct (predict_irrigation_returns C data {| world := w1; stdout := stdout s |})
    as (r & s' & Hp & Hout).
  rewrite Hp. eexists; eexists; split; [reflexivity | exact Hout].
Qed.

(** X6: a failure inside the pipeline does not turn the trigger's status to
    error: when the classification raises, the trigger answers with status
    success around the pipeline's error result. *)
Theorem trigger_prediction_success_around_error
    (s : machine W) (current : json) (data : SensorData)
    (now : datetime) (w1 w2 : W) (e : exn) :
  db_get C "sensorData/raw" (world s) = (Ok current, w1) ->
  Py.truthy current = true ->
  read_SensorData C current = Ok data ->
  datetime_now C w1 = (now, w2) ->
  classify C data now = Raise e ->
  fst (trigger_prediction C s) =
    Ok (TriggerSuccess (PredictionError (str_exn e)) current).
Proof.
  intros Hget Htruthy Hread Hnow Hc.
  unfold trigger_prediction, try_except, trigger_prediction_try, bind, call, pure, ret.
  rewrite Hget, Htruthy, Hread.
  rewrite (predict_irrigation_classify_raises C data
             {| world := w1; stdout := stdout s |} now w2 e Hnow Hc).
  reflexivity.
Qed.

(** X7: a field that cannot be coerced (a string that is no number, [null],
    a list, a mapping, an integer beyond the floats) makes the trigger answer
    with status error and the message of the failed [float(...)]; the
    pipeline is not called and nothing is printed. *)
Theorem trigger_prediction_coercion_failure
    (s : machine W) (current : json) (w1 : W) (e : exn) :
  db_get C "sensorData/raw" (world s) = (Ok current, w1) ->
  Py.truthy current = true ->
  read_SensorData C current = Raise e ->
  trigger_prediction C s = (Ok (TriggerError (str_exn e)), at_world s w1).
Proof.
  intros Hget Htruthy Hread.
  unfold trigger_prediction, try_except, trigger_prediction_try, bind, call, pure.
  rewrite Hget, Htruthy, Hread. reflexivity.
Qed.

(** X8: the health check never raises and prints nothing; it reports
    healthy, with the node it read, whenever the read returned, an absent
    node included, and unhealthy, with the message, when the read raised;
    either way the timestamp has the ISO-8601 shape. *)
Theorem health_check_reflects_the_read (s : machine W) :
  exists resp s',
    health_check C s = (Ok resp, s') /\
    stdout s' = stdout s /\
    match fst (db_get C "sensorData/raw" (world s)), resp with
    | Ok d, Healthy d' t => d' = d /\ Datetime.is_iso8601 t = true
    | Raise e, Unhealthy msg t => msg = str_exn e /\ Datetime.is_iso8601 t = true
    | _, _ => False
    end.
Proof.
  unfold health_check, try_except, health_check_try, bind, call, call_total,
    ret, any_Exception.
  destruct (db_get C "sensorData/raw" (world s)) as [[d|e] w1]; cbn [fst world stdout];
    destruct (datetime_now C w1) as [now w2];
    eexists; eexists; (split; [reflexivity | ]);
    (split; [reflexivity | ]); (split; [reflexivity | apply isoformat_is_iso8601]).
Qed.

(** X9: the reading taken from a mapping depends on the three required
    fields only; whatever else the mapping holds is ignored. *)
Theorem read_SensorData_ignores_other_fields
    (fields fields' : list (string * json)) :
  (forall f, In f required_fields -> Py.lookup f fields = Py.lookup f fields') ->
  read_SensorData C (JObj fields) = read_SensorData C (JObj fields').
Proof.
  intros H. unfold read_SensorData, float_field, Py.get.
  rewrite (H "humidity"), (H "temperature"), (H "soilMoisture");
    [reflexivity | cbn; auto ..].
Qed.

End EndpointFacts.

(** ** Further properties of the background monitor *)

Section PassFacts.

Context {W : Type} (C : Collaborators W).

Ltac simp :=
  cbn -[all_in not_in read_SensorData changed predict_irrigation required_fields
        missing_of].

Ltac step :=
  unfold monitor_try, process_snapshot, try_except, bind, call, pure, ret,
    print, printed, at_world;
  cbn [world stdout fst snd].

(** The report of the incomplete branch lists the required fields absent. *)
Lemma not_in_missing_of fields :
  not_in required_fields (JObj fields) = Ok (missing_of fields).
Proof.
  unfold missing_of. cbn.
  destruct (Py.lookup "humidity" fields), (Py.lookup "temperature" fields),
    (Py.lookup "soilMoisture" fields); reflexivity.
Qed.

Lemma all_in_mapping fields :
  all_in required_fields (JObj fields) = Ok (has_required_fields (JObj fields)).
Proof.
  cbn.
  destruct (Py.lookup "humidity" fields), (Py.lookup "temperature" fields),
    (Py.lookup "soilMoisture" fields); reflexivity.
Qed.

Lemma missing_of_nil_iff fields :
  missing_of fields = [] <-> has_required_fields (JObj fields) = true.
Proof.
  unfold missing_of. cbn.
  destruct (Py.lookup "humidity" fields), (Py.lookup "temperature" fields),
    (Py.lookup "soilMoisture" fields); cbn; split;
    solve [reflexivity | discriminate].
Qed.

(** X10: a pass that finds the node absent changes neither variable, calls
    nothing, prints the two lines of that branch and goes to sleep: an
    absent node is not an error. *)
Theorem absent_node_is_skipped (st : PollerState) (s : machine W) (w1 : W) :
  db_get C "sensorData" (world s) = (Ok JNull, w1) ->
  monitor_iteration C st s =
    ((st, Continue),
     at_world (printed s [CurrentSensorData JNull; NoSensorDataFound])
              (time_sleep C 5 w1)).
Proof.
  intros Hget.
  rewrite (monitor_iteration_ok C _ _ _ _ (monitor_try_no_data C st s w1 Hget)).
  reflexivity.
Qed.

(** X11: a pass that reads a changed mapping lacking a required field
    reports exactly the required fields that are absent (at least one) and
    the keys that are there, leaves [last_values] and the counter as they
    were and does not call the pipeline: the same node is examined again on
    the next pass. *)
Theorem incomplete_snapshot_is_reported
    (st : PollerState) (s : machine W) (fields : list (string * json)) (w1 : W) :
  db_get C "sensorData" (world s) = (Ok (JObj fields), w1) ->
  changed st (JObj fields) = true ->
  has_required_fields (JObj fields) = false ->
  missing_of fields <> [] /\
  monitor_iteration C st s =
    ((st, Continue),
     at_world
       (printed s [CurrentSensorData (JObj fields);
                   DetectedChange (last_values st) (JObj fields);
                   MissingRequiredFields (missing_of fields);
                   AvailableFields (map fst fields)])
       (time_sleep C 5 w1)).
Proof.
  intros Hget Hch Hreq. split.
  - intros Hnil. apply missing_of_nil_iff in Hnil. congruence.
  - assert (Htry : monitor_try C st s =
      (Ok st, printed (at_world s w1)
                [CurrentSensorData (JObj fields);
                 DetectedChange (last_values st) (JObj fields);
                 MissingRequiredFields (missing_of fields);
                 AvailableFields (map fst fields)])).
    { step. rewrite Hget. simp. rewrite Hch. simp.
      rewrite all_in_mapping, Hreq. simp. rewrite not_in_missing_of. simp.
      rewrite <- !app_assoc. reflexivity. }
    rewrite (monitor_iteration_ok C _ _ _ _ Htry). reflexivity.
Qed.

(** X12: a [ValueError] or [TypeError] raised while coercing the fields of a
    changed, complete node is caught by the inner handler: the pass prints
    the validation error, leaves [last_values] and the counter as they were,
    does not call the pipeline and goes on. *)
Theorem validation_error_is_not_counted
    (st : PollerState) (s : machine W) (current : json) (w1 : W) (e : exn) :
  db_get C "sensorData" (world s) = (Ok current, w1) ->
  changed st current = true ->
  all_in required_fields current = Ok true ->
  read_SensorData C current = Raise e ->
  ValueError_or_TypeError e = true ->
  monitor_iteration C st s =
    ((st, Continue),
     at_world
       (printed s [CurrentSensorData current;
                   DetectedChange (last_values st) current;
                   DataValidationError e current])
       (time_sleep C 5 w1)).
Proof.
  intros Hget Hch Hall Hread Hcatch.
  assert (Htry : monitor_try C st s =
    (Ok st, printed (at_world s w1)
              [CurrentSensorData current;
               DetectedChange (last_values st) current;
               DataValidationError e current])).
  { step. rewrite Hget. simp.
    assert (Hnn : current <> JNull) by (intros ->; discriminate).
    destruct current; try congruence; rewrite Hch; simp; rewrite Hall, Hread;
      simp; rewrite Hcatch; rewrite <- !app_assoc; reflexivity. }
  rewrite (monitor_iteration_ok C _ _ _ _ Htry). reflexivity.
Qed.

(** X13: any other exception raised while coercing the fields (the
    [OverflowError] of an integer beyond the floats, the [AttributeError] of
    a node without [.get]) passes the inner handler and is counted by the
    outer one as a monitoring error: the counter goes up by one, and the
    loop is left if that reaches the ceiling. *)
Theorem other_coercion_error_is_counted
    (st : PollerState) (s : machine W) (current : json) (w1 : W) (e : exn) :
  db_get C "sensorData" (world s) = (Ok current, w1) ->
  changed st current = true ->
  all_in required_fields current = Ok true ->
  read_SensorData C current = Raise e ->
  ValueError_or_TypeError e = false ->
  fst (monitor_iteration C st s) =
    (more_errors 1 st,
     if consecutive_errors st + 1 >=? max_errors then Break else Continue) /\
  In (ErrorWhileMonitoring (consecutive_errors st + 1) e)
     (stdout (snd (monitor_iteration C st s))).
Proof.
  intros Hget Hch Hall Hread Hcatch.
  assert (Htry : monitor_try C st s =
    (Raise e, printed (at_world s w1)
                [CurrentSensorData current;
                 DetectedChange (last_values st) current])).
  { step. rewrite Hget. simp.
    assert (Hnn : current <> JNull) by (intros ->; discriminate).
    destruct current; try congruence; rewrite Hch; simp; rewrite Hall, Hread;
      simp; rewrite Hcatch; rewrite <- !app_assoc; reflexivity. }
  rewrite (monitor_iteration_raise C _ _ _ _ Htry).
  destruct (consecutive_errors st + 1 >=? max_errors); cbn [fst snd];
    (split; [reflexivity | ]);
    cbn [printed at_world stdout]; rewrite !in_app_iff; cbn; auto.
Qed.

(** X14: a node that is there but is not a mapping (a number, a boolean, a
    string, a list) is counted as a monitoring error although the read
    succeeded: the pass raises while examining it, the counter goes up by
    one and [last_values] stays. *)
Theorem node_that_is_no_mapping_is_counted
    (st : PollerState) (s : machine W) (current : json) (w1 : W) :
  last_values_ok st = true ->
  db_get C "sensorData" (world s) = (Ok current, w1) ->
  current <> JNull ->
  is_mapping current = false ->
  fst (monitor_iteration C st s) =
    (more_errors 1 st,
     if consecutive_errors st + 1 >=? max_errors then Break else Continue).
Proof.
  intros Hst Hget Hnn Hmap.
  assert (Hch : changed st current = true).
  { unfold changed, Py.ne. unfold last_values_ok in Hst.
    destruct (last_values st) as [previous|]; [ | reflexivity].
    destruct previous; try discriminate.
    destruct current; try discriminate; try congruence; reflexivity. }
  assert (Htry : exists e s', monitor_try C st s = (Raise e, s')).
  { step. rewrite Hget. simp.
    destruct current; try congruence; try discriminate; rewrite Hch; simp;
      try (eexists; eexists; reflexivity);
      match goal with |- context [all_in required_fields ?v] =>
        destruct (all_in required_fields v) as [[|]|e]
      end; simp;
      try (eexists; eexists; reflexivity);
      match goal with |- context [not_in required_fields ?v] =>
        destruct (not_in required_fields v) as [missing|e]
      end; simp; eexists; eexists; reflexivity. }
  destruct Htry as (e & s' & Htry).
  rewrite (monitor_iteration_raise C _ _ _ _ Htry).
  destruct (_ >=? _); reflexivity.
Qed.

End PassFacts.

(** ** Properties of whole runs of the monitor *)

Section LoopFacts.

Context {W : Type} (C : Collaborators W).

Ltac simp :=
  cbn -[all_in not_in read_SensorData changed predict_irrigation required_fields
        pipeline_calls].

Ltac step :=
  unfold monitor_try, process_snapshot, try_except, bind, call, pure, ret, print;
  cbn [world stdout fst snd].

Ltac count := rewrite ?pipeline_calls_app; cbn; lia.

(** What the body of the [try] does to the variables and to the number of
    pipeline calls the log shows. *)
Lemma monitor_try_calls st s :
  match monitor_try C st s with
  | (Ok st', s') =>
      (st' = st /\ pipeline_calls (stdout s') = pipeline_calls (stdout s)) \/
      (exists fields,
         fst (db_get C "sensorData" (world s)) = Ok (JObj fields) /\
         has_required_fields (JObj fields) = true /\
         st' = {| last_values := Some (JObj fields); consecutive_errors := 0 |} /\
         pipeline_calls (stdout s') = (pipeline_calls (stdout s) + 1)%nat)
  | (Raise _, s') => pipeline_calls (stdout s') = pipeline_calls (stdout s)
  end.
Proof.
  step.
  destruct (db_get C "sensorData" (world s)) as [[current|e] w1];
    [ | reflexivity].
  simp.
  destruct current; simp; try (left; split; [reflexivity | count]);
    (destruct (changed st _); simp; [ | left; split; [reflexivity | count]]);
    match goal with |- context [all_in required_fields ?v] =>
      destruct (all_in required_fields v) as [[|]|e] eqn:Hall
    end; simp; try count;
    try (match goal with |- context [not_in required_fields ?v] =>
           destruct (not_in required_fields v) as [missing|e]
         end; simp; try count);
    try (unfold read_SensorData, float_field; cbn [Py.get and_then]; simp; count).
  - (* a complete mapping *)
    destruct (read_SensorData C (JObj fields)) as [data|e] eqn:Hread; simp.
    + match goal with |- context [predict_irrigation C data ?m] =>
        destruct (predict_irrigation_returns C data m) as (r & s2 & Hp & Hout)
      end.
      rewrite Hp. simp. right. exists fields.
      split; [reflexivity | ].
      split; [apply all_in_has_required_fields, Hall | split; [reflexivity | ]].
      rewrite Hout. simp. rewrite !pipeline_calls_app, pipeline_calls_result_line.
      cbn. lia.
    + destruct (ValueError_or_TypeError e); simp;
        [left; split; [reflexivity | count] | count].
  - (* an incomplete mapping *)
    left; split; [reflexivity | count].
Qed.

(** X15: every pass either calls the pipeline exactly once, stores in
    [last_values] the very mapping its read of the node returned (which has
    the three required fields), zeroes the counter and goes on, or does not
    call the pipeline and leaves [last_values] as it was.  The pipeline is
    never called without the snapshot read being stored, and [last_values]
    never changes without a call. *)
Theorem pass_processes_or_keeps_last_values (st : PollerState) (s : machine W) :
  let pass := monitor_iteration C st s in
  (pipeline_calls (stdout (snd pass)) = (pipeline_calls (stdout s) + 1)%nat /\
   snd (fst pass) = Continue /\
   consecutive_errors (fst (fst pass)) = 0 /\
   exists fields,
     fst (db_get C "sensorData" (world s)) = Ok (JObj fields) /\
     last_values (fst (fst pass)) = Some (JObj fields) /\
     has_required_fields (JObj fields) = true) \/
  (pipeline_calls (stdout (snd pass)) = pipeline_calls (stdout s) /\
   last_values (fst (fst pass)) = last_values st).
Proof.
  intros pass. subst pass.
  pose proof (monitor_try_calls st s) as Hcalls.
  destruct (monitor_try C st s) as [[st'|e] s'] eqn:Htry.
  - rewrite (monitor_iteration_ok C _ _ _ _ Htry). cbn [fst snd at_world stdout].
    destruct Hcalls as [[-> Hsame] | (fields & Hread & Hreq & -> & Hmore)].
    + right. auto.
    + left. repeat split; [exact Hmore | ]. exists fields. auto.
  - rewrite (monitor_iteration_raise C _ _ _ _ Htry). right.
    destruct (_ >=? _); cbn [fst snd at_world printed stdout last_values];
      (split; [ | reflexivity]); rewrite pipeline_calls_app; cbn; lia.
Qed.

Lemma monitor_iteration_calls_bounds st s :
  (pipeline_calls (stdout s) <=
     pipeline_calls (stdout (snd (monitor_iteration C st s))) <=
     pipeline_calls (stdout s) + 1)%nat.
Proof.
  pose proof (monitor_try_calls st s) as Hcalls.
  destruct (monitor_try C st s) as [[st'|e] s'] eqn:Htry.
  - rewrite (monitor_iteration_ok C _ _ _ _ Htry). cbn [snd at_world stdout].
    destruct Hcalls as [[_ H] | (fields & _ & _ & _ & H)]; lia.
  - rewrite (monitor_iteration_raise C _ _ _ _ Htry).
    destruct (_ >=? _); cbn [snd at_world printed stdout];
      rewrite pipeline_calls_app; cbn; lia.
Qed.

(** X16: in [n] passes the monitor calls the pipeline at most [n] times:
    never more than one prediction, hence one pair of writes, per pass. *)
Theorem at_most_one_prediction_per_pass (n : nat) (st : PollerState) (s : machine W) :
  (pipeline_calls (stdout s) <=
     pipeline_calls (stdout (snd (monitor_loop C n st s))) <=
     pipeline_calls (stdout s) + n)%nat.
Proof.
  revert st s. induction n as [|n IH]; intros st s; cbn [monitor_loop].
  - cbn [snd]. lia.
  - pose proof (monitor_iteration_calls_bounds st s) as Hpass.
    destruct (monitor_iteration C st s) as [[st' [|]] s']; cbn [snd] in *.
    + specialize (IH st' s'). lia.
    + lia.
Qed.

Lemma monitor_loop_counter_bounds n st s :
  0 <= consecutive_errors st < max_errors ->
  let '((st', c), _) := monitor_loop C n st s in
  match c with
  | Continue => 0 <= consecutive_errors st' < max_errors
  | Break => consecutive_errors st' = max_errors
  end.
Proof.
  revert st s. induction n as [|n IH]; intros st s Hst; cbn [monitor_loop].
  - exact Hst.
  - destruct (monitor_try C st s) as [[st1|e] s1] eqn:Htry.
    + rewrite (monitor_iteration_ok C _ _ _ _ Htry).
      apply IH.
      destruct (monitor_try_state C _ _ _ _ Htry) as [-> | (fields & _ & ->)];
        [exact Hst | unfold max_errors; cbn; lia].
    + rewrite (monitor_iteration_raise C _ _ _ _ Htry).
      unfold max_errors in *.
      destruct (consecutive_errors st + 1 >=? 5) eqn:Hn.
      * apply Z.geb_le in Hn. cbn [consecutive_errors]. lia.
      * match goal with |- context [monitor_loop C n ?st2 ?s2] =>
          apply (IH st2 s2)
        end.
        cbn [consecutive_errors].
        destruct (Z.geb_spec (consecutive_errors st + 1) 5); [discriminate | lia].
Qed.

(** X17: however long the monitor runs, its counter stays between 0 and 5;
    while the loop is running the counter is below 5, and the loop has been
    left exactly when the counter is 5. *)
Theorem counter_stays_within_the_ceiling (n : nat) (s : machine W) :
  let '((st, c), _) := monitor_firebase_sensor_data C n s in
  0 <= consecutive_errors st <= max_errors /\
  (c = Break <-> consecutive_errors st = max_errors).
Proof.
  unfold monitor_firebase_sensor_data.
  pose proof (monitor_loop_counter_bounds n initial_state
                (snd (print StartingMonitoring s))) as H.
  destruct (monitor_loop C n initial_state _) as [[st c] s'].
  assert (H0 : 0 <= consecutive_errors initial_state < max_errors)
    by (unfold max_errors; cbn; lia).
  specialize (H H0). unfold max_errors in *.
  destruct c; split; try lia; split; intros; try discriminate; try lia;
    reflexivity.
Qed.

End LoopFacts.

Section SleepFacts.

Context {W : Type} (C : Collaborators W).

(** X21: a pass that goes on ends with [time.sleep(5)], applied to the world
    its body left; the pass that leaves the loop does not sleep. *)
Theorem sleep_unless_break (st : PollerState) (s : machine W) :
  let body := monitor_try C st s in
  let pass := monitor_iteration C st s in
  (snd (fst pass) = Continue ->
   world (snd pass) = time_sleep C 5 (world (snd body))) /\
  (snd (fst pass) = Break -> world (snd pass) = world (snd body)).
Proof.
  intros body pass. subst body pass.
  destruct (monitor_try C st s) as [[st'|e] s'] eqn:Htry.
  - rewrite (monitor_iteration_ok C _ _ _ _ Htry).
    split; [reflexivity | discriminate].
  - rewrite (monitor_iteration_raise C _ _ _ _ Htry).
    destruct (_ >=? _); split; try discriminate; reflexivity.
Qed.

End SleepFacts.

(** ** Further runs on the scripted world *)

Section MoreRuns.

Let C := Sim.collaborators.
Let U := Sim.unfitted.
Let A := Sim.snapshot 60 30 45.
Let data := Sim.reading 60 30 45.

Lemma prediction_iff_classified_and_saved_witness :
  fst (predict_irrigation C data (Sim.boot [] [])) =
    Ok (Prediction 2 "2024-03-09T14:05:07").
Proof.
  apply (proj2 (prediction_iff_classified_and_saved C data (Sim.boot [] [])
                  Sim.clock Sim.clock (world (Sim.boot [] []))
                  (world (Sim.boot [] [])) 2 "2024-03-09T14:05:07"
                  eq_refl eq_refl)).
  repeat split.
Defined.

Lemma classification_failure_writes_nothing_witness :
  fst (predict_irrigation U data (Sim.boot [] [])) =
    Ok (PredictionError "y contains previously unseen labels: 'Coimbatore'") /\
  Sim.written (world (snd (predict_irrigation U data (Sim.boot [] [])))) = [].
Proof.
  destruct (classification_failure_writes_nothing U data (Sim.boot [] [])
              Sim.clock (world (Sim.boot [] [])) Sim.unseen_label
              eq_refl eq_refl) as (Hr & Hw & _).
  split; [exact Hr | rewrite Hw; reflexivity].
Defined.

Lemma class_stays_written_when_time_write_fails_witness :
  let s := Sim.boot [] ["sensorData/last_prediction_time"] in
  fst (predict_irrigation C data s) = Ok (PredictionError "store unavailable") /\
  Sim.written (world (snd (predict_irrigation C data s))) =
    [("sensorData/prediction_class", JInt 2)].
Proof.
  intros s.
  rewrite (class_stays_written_when_time_write_fails C data s
             Sim.clock Sim.clock (world s) (world s) _ _ 2 Sim.store_down
             eq_refl eq_refl eq_refl eq_refl eq_refl).
  split; reflexivity.
Defined.

Lemma trigger_prediction_not_a_mapping_witness :
  fst (trigger_prediction C (Sim.boot [Ok (JInt 7)] [])) =
    Ok (TriggerError "'int' object has no attribute 'get'").
Proof.
  rewrite (trigger_prediction_not_a_mapping C (Sim.boot [Ok (JInt 7)] [])
             (JInt 7) (world (Sim.boot [] [])) eq_refl eq_refl eq_refl).
  reflexivity.
Defined.

Lemma trigger_prediction_success_around_error_witness :
  fst (trigger_prediction U (Sim.boot [Ok A] [])) =
    Ok (TriggerSuccess
          (PredictionError "y contains previously unseen labels: 'Coimbatore'") A).
Proof.
  apply (trigger_prediction_success_around_error U (Sim.boot [Ok A] []) A data
           Sim.clock (world (Sim.boot [] [])) (world (Sim.boot [] []))
           Sim.unseen_label); reflexivity.
Defined.

Lemma trigger_prediction_coercion_failure_witness :
  fst (trigger_prediction C (Sim.boot [Ok Sim.garbled] [])) =
    Ok (TriggerError "could not convert string to float: 'wet'").
Proof.
  rewrite (trigger_prediction_coercion_failure C (Sim.boot [Ok Sim.garbled] [])
             Sim.garbled (world (Sim.boot [] [])) _ eq_refl eq_refl eq_refl).
  reflexivity.
Defined.

Lemma trigger_prediction_no_data_witness :
  fst (trigger_prediction C (Sim.boot [Ok (JObj [])] [])) =
    Ok (TriggerError "No sensor data found").
Proof.
  rewrite (trigger_prediction_no_data C (Sim.boot [Ok (JObj [])] [])
             (JObj []) (world (Sim.boot [] [])) eq_refl eq_refl).
  reflexivity.
Defined.

Lemma read_SensorData_ignores_other_fields_witness :
  read_SensorData C Sim.annotated = Ok data.
Proof.
  unfold Sim.annotated.
  rewrite (read_SensorData_ignores_other_fields C _
             [("humidity", JInt 60); ("temperature", JInt 30);
              ("soilMoisture", JInt 45)]).
  - reflexivity.
  - intros f [<- | [<- | [<- | []]]]; reflexivity.
Defined.

Lemma absent_node_is_skipped_witness :
  fst (monitor_iteration C initial_state (Sim.boot [Ok JNull] [])) =
    (initial_state, Continue).
Proof.
  rewrite (absent_node_is_skipped C initial_state (Sim.boot [Ok JNull] [])
             (world (Sim.boot [] [])) eq_refl).
  reflexivity.
Defined.

Lemma incomplete_snapshot_is_reported_witness :
  In (MissingRequiredFields ["soilMoisture"])
     (stdout (snd (monitor_iteration C initial_state
                     (Sim.boot [Ok Sim.incomplete] [])))) /\
  fst (monitor_iteration C initial_state (Sim.boot [Ok Sim.incomplete] [])) =
    (initial_state, Continue).
Proof.
  destruct (incomplete_snapshot_is_reported C initial_state
              (Sim.boot [Ok Sim.incomplete] [])
              [("humidity", JInt 60); ("temperature", JInt 30)]
              (world (Sim.boot [] [])) eq_refl eq_refl eq_refl) as [_ Hpass].
  rewrite Hpass. split; [cbn; auto | reflexivity].
Defined.

Lemma validation_error_is_not_counted_witness :
  fst (monitor_iteration C initial_state (Sim.boot [Ok Sim.garbled] [])) =
    (initial_state, Continue).
Proof.
  rewrite (validation_error_is_not_counted C initial_state
             (Sim.boot [Ok Sim.garbled] []) Sim.garbled
             (world (Sim.boot [] [])) _ eq_refl eq_refl eq_refl eq_refl eq_refl).
  reflexivity.
Defined.

Lemma other_coercion_error_is_counted_witness :
  fst (monitor_iteration C initial_state (Sim.boot [Ok Sim.huge] [])) =
    ({| last_values := None; consecutive_errors := 1 |}, Continue).
Proof.
  destruct (other_coercion_error_is_counted C initial_state
              (Sim.boot [Ok Sim.huge] []) Sim.huge (world (Sim.boot [] []))
              (Exn OverflowError "int too large to convert to float")
              eq_refl eq_refl eq_refl eq_refl eq_refl) as [Hpass _].
  exact Hpass.
Defined.

Lemma node_that_is_no_mapping_is_counted_witness :
  let node := JStr "humidity temperature soilMoisture" in
  fst (monitor_iteration C initial_state (Sim.boot [Ok node] [])) =
    ({| last_values := None; consecutive_errors := 1 |}, Continue).
Proof.
  intros node.
  apply (node_that_is_no_mapping_is_counted C initial_state
           (Sim.boot [Ok node] []) node (world (Sim.boot [] [])));
    [reflexivity | reflexivity | discriminate | reflexivity].
Defined.

Lemma five_failed_reads_stop_witness :
  let script := [Sim.down; Sim.down; Sim.down; Sim.down; Sim.down] in
  fst (monitor_loop C 4 initial_state (Sim.boot script [])) =
    ({| last_values := None; consecutive_errors := 4 |}, Continue) /\
  fst (monitor_loop C 5 initial_state (Sim.boot script [])) =
    ({| last_values := None; consecutive_errors := 5 |}, Break).
Proof.
  intros script.
  apply (five_failed_reads_stop C initial_state (Sim.boot script []));
    [reflexivity | ].
  cbn. repeat (eexists; eexists; split; [reflexivity | ]). exact I.
Defined.

Lemma sleep_unless_break_witness :
  Sim.slept (world (snd (monitor_iteration C initial_state (Sim.boot [Ok A] []))))
    = 5.
Proof.
  rewrite (proj1 (sleep_unless_break C initial_state (Sim.boot [Ok A] []))
             eq_refl).
  reflexivity.
Defined.

End MoreRuns.
